(** * NEXUS: the dashboard's API client, hooks and pages, and the backend
      core that the specification describes

    The TypeScript front end (services/nasaApi.ts, hooks/useNasaData.ts,
    pages/Laboratory.tsx, pages/Search.tsx, components/GraphViewport.tsx) is
    embedded from its source.  The Python backend (aggregation, graph
    building, cache fingerprint, remote gateway) is not part of the source
    tree; its definitions are modelled from the specification and say so. *)

From Stdlib Require Import List String Ascii ZArith Bool Lia.
From Stdlib Require Import Permutation Sorted OrderedTypeEx.
From Stdlib Require Import DecimalString DecimalPos DecimalZ.
Import ListNotations.
Local Open Scope list_scope.
Local Open Scope string_scope.
Set Warnings "-register-all".

(* ================================================================== *)
(** ** JavaScript values, as far as the client code uses them *)
(* ================================================================== *)

Module Js.

(** A value of type [any]: what [JSON.parse] delivers, plus [undefined].
    Numbers are the integer-valued ones (limits, pages, sizes, statuses). *)
Inductive value : Type :=
| Undefined
| Null
| Bool (b : bool)
| Num (n : Z)
| Str (s : string)
| Arr (xs : list value)
| Obj (fields : list (string * value)).

(** [ToBoolean]. *)
Definition truthy (v : value) : bool :=
  match v with
  | Undefined | Null => false
  | Bool b => b
  | Num n => negb (Z.eqb n 0)
  | Str s => negb (String.eqb s "")
  | Arr _ | Obj _ => true
  end.

(** [a || b] and [a && b] return one of their operands. *)
Definition or (a b : value) : value := if truthy a then a else b.
Definition and (a b : value) : value := if truthy a then b else a.

(** [!v]; [!!v] is [truthy v]. *)
Definition not (v : value) : bool := negb (truthy v).

Fixpoint lookup (k : string) (fields : list (string * value)) : value :=
  match fields with
  | [] => Undefined
  | (k', v) :: rest => if String.eqb k k' then v else lookup k rest
  end.

(** [o.k] on an object, and [.length] on an array or on (ASCII) text; a
    property that is not there reads [undefined], as does any other property
    of a primitive.  (Reading a property of [null] or
    [undefined] itself throws; the members of a parsed array the pages map
    over are objects.) *)
Definition get (o : value) (k : string) : value :=
  match o with
  | Obj fields => lookup k fields
  | Arr xs => if String.eqb k "length" then Num (Z.of_nat (List.length xs)) else Undefined
  | Str s => if String.eqb k "length" then Num (Z.of_nat (String.length s)) else Undefined
  | _ => Undefined
  end.

(** [o?.k]. *)
Definition opt_get (o : value) (k : string) : value :=
  match o with
  | Undefined | Null => Undefined
  | _ => get o k
  end.

(** Template-literal conversion of a safe integer (magnitude at most
    2^53 - 1): its decimal digits, with a leading minus sign below zero. *)
Definition number_to_string (n : Z) : string :=
  NilZero.string_of_int (Z.to_int n).

(** [Number.MAX_SAFE_INTEGER], and the integers every one of which is a
    number of its own. *)
Definition max_safe_integer : Z := 9007199254740991.

Definition is_safe (n : Z) : bool :=
  (- max_safe_integer <=? n)%Z && (n <=? max_safe_integer)%Z.

(** A number handed to a function as an argument.  It is a safe integer, or
    some other number (a fraction, a larger magnitude, [NaN], an infinity);
    of such a number the model keeps the text that [String(x)] gives, which
    is all the client does with it. *)
Inductive number : Type :=
| Integer (n : Z) (safe : is_safe n = true)
| Other (printed : string).

(** The template-literal conversion of a number. *)
Definition number_text (x : number) : string :=
  match x with
  | Integer n _ => number_to_string n
  | Other printed => printed
  end.

Definition boolean_to_string (b : bool) : string :=
  if b then "true" else "false".

(** The template-literal conversion of any value.  An array is its members
    joined by commas, [null] and [undefined] members counting as empty; an
    object is ["[object Object]"]. *)
Fixpoint to_text (v : value) : string :=
  match v with
  | Undefined => "undefined"
  | Null => "null"
  | Bool b => boolean_to_string b
  | Num n => number_to_string n
  | Str s => s
  | Arr xs =>
      (fix join (l : list value) : string :=
         match l with
         | [] => ""
         | x :: rest =>
             (match x with
              | Undefined | Null => ""
              | _ => to_text x
              end)
             ++ match rest with
                | [] => ""
                | _ => "," ++ join rest
                end
         end) xs
  | Obj _ => "[object Object]"
  end.

(** [String.prototype.toLowerCase] on the ASCII letters. *)
Definition lower_ascii (c : ascii) : ascii :=
  let n := nat_of_ascii c in
  if (65 <=? n)%nat && (n <=? 90)%nat then ascii_of_nat (n + 32) else c.

Fixpoint toLowerCase (s : string) : string :=
  match s with
  | EmptyString => EmptyString
  | String c rest => String (lower_ascii c) (toLowerCase rest)
  end.

(** *** [encodeURIComponent]

    A string is the UTF-8 octet sequence of a well-formed JavaScript string.
    Every octet outside [uriUnescaped] (letters, digits and the marks
    [- _ . ! ~ * ' ( )]) becomes [%XX] with upper-case hexadecimal digits. *)
Definition is_alpha (n : nat) : bool :=
  ((65 <=? n)%nat && (n <=? 90)%nat) || ((97 <=? n)%nat && (n <=? 122)%nat).

Definition is_digit (n : nat) : bool := (48 <=? n)%nat && (n <=? 57)%nat.

Definition uri_mark : list ascii :=
  ["-"; "_"; "."; "!"; "~"; "*"; "'"; "("; ")"]%char.

Definition is_mark (c : ascii) : bool :=
  existsb (Ascii.eqb c) uri_mark.

Definition uri_unescaped (c : ascii) : bool :=
  is_alpha (nat_of_ascii c) || is_digit (nat_of_ascii c) || is_mark c.

(** [uriReserved] of the language definition, and the number sign. *)
Definition uri_reserved : list ascii :=
  [";"; "/"; "?"; ":"; "@"; "&"; "="; "+"; "$"; ","]%char.

Definition is_reserved (c : ascii) : bool :=
  existsb (Ascii.eqb c) uri_reserved || Ascii.eqb c "#"%char.

Definition hex_digit (n : nat) : ascii :=
  match n with
  | 0 => "0" | 1 => "1" | 2 => "2" | 3 => "3" | 4 => "4" | 5 => "5"
  | 6 => "6" | 7 => "7" | 8 => "8" | 9 => "9" | 10 => "A" | 11 => "B"
  | 12 => "C" | 13 => "D" | 14 => "E" | _ => "F"
  end%char.

Definition percent_escape (c : ascii) : string :=
  let n := nat_of_ascii c in
  String "%"%char (String (hex_digit (n / 16)) (String (hex_digit (n mod 16)) EmptyString)).

Definition encode_octet (c : ascii) : string :=
  if uri_unescaped c then String c EmptyString else percent_escape c.

Fixpoint encodeURIComponent (s : string) : string :=
  match s with
  | EmptyString => EmptyString
  | String c rest => encode_octet c ++ encodeURIComponent rest
  end.

(** The inverse reading of the escapes, as a server's router applies it. *)
Definition hex_value (c : ascii) : option nat :=
  let n := nat_of_ascii c in
  if is_digit n then Some (n - 48)
  else if (65 <=? n)%nat && (n <=? 70)%nat then Some (n - 55)
  else None.

Fixpoint decodeURIComponent (s : string) : option string :=
  match s with
  | EmptyString => Some EmptyString
  | String c rest =>
      if Ascii.eqb c "%"%char then
        match rest with
        | String h (String l rest') =>
            match hex_value h, hex_value l, decodeURIComponent rest' with
            | Some a, Some b, Some t => Some (String (ascii_of_nat (16 * a + b)) t)
            | _, _, _ => None
            end
        | _ => None
        end
      else option_map (String c) (decodeURIComponent rest)
  end.

(** [a ?? b]: [b] takes the place of [null] and [undefined] only. *)
Definition nullish (v : value) : bool :=
  match v with
  | Undefined | Null => true
  | _ => false
  end.

Definition coalesce (a b : value) : value := if nullish a then b else a.

(** [v === "s"] against a string literal. *)
Definition is_string (v : value) (s : string) : bool :=
  match v with
  | Str x => String.eqb x s
  | _ => false
  end.

(** [!s.trim()]: the text is empty or white space throughout.  White space
    is what [trim] removes: tab, line feed, vertical tab, form feed, carriage
    return, space, and (as UTF-8 octets) U+00A0, U+1680, U+2000 to U+200A,
    U+2028, U+2029, U+202F, U+205F, U+3000 and U+FEFF. *)
Definition space1 (a : nat) : bool :=
  ((9 <=? a)%nat && (a <=? 13)%nat) || Nat.eqb a 32.

Definition space2 (a b : nat) : bool := Nat.eqb a 194 && Nat.eqb b 160.

Definition space3 (a b c : nat) : bool :=
  (Nat.eqb a 225 && Nat.eqb b 154 && Nat.eqb c 128)
  || (Nat.eqb a 226 && Nat.eqb b 128
      && (((128 <=? c)%nat && (c <=? 138)%nat)
          || Nat.eqb c 168 || Nat.eqb c 169 || Nat.eqb c 175))
  || (Nat.eqb a 226 && Nat.eqb b 129 && Nat.eqb c 159)
  || (Nat.eqb a 227 && Nat.eqb b 128 && Nat.eqb c 128)
  || (Nat.eqb a 239 && Nat.eqb b 187 && Nat.eqb c 191).

Fixpoint blank (s : string) : bool :=
  match s with
  | EmptyString => true
  | String a rest =>
      if space1 (nat_of_ascii a) then blank rest
      else
        match rest with
        | EmptyString => false
        | String b rest2 =>
            if space2 (nat_of_ascii a) (nat_of_ascii b) then blank rest2
            else
              match rest2 with
              | EmptyString => false
              | String c rest3 =>
                  if space3 (nat_of_ascii a) (nat_of_ascii b) (nat_of_ascii c)
                  then blank rest3
                  else false
              end
        end
  end.

End Js.

(* ================================================================== *)
(** ** The Fetch interface: requests, responses, promises *)
(* ================================================================== *)

Module Http.

Record request : Type := mk_request {
  url : string;
  method : string;
  headers : list (string * string);
  (** the value handed to [JSON.stringify], when the request has a body *)
  body : option Js.value
}.

Definition GET (u : string) : request := mk_request u "GET" [] None.

(** A received [Response], through the accessors the client reads:
    [r.status], [r.statusText], what [r.text()] resolves to, and what
    [r.json()] resolves to ([None] when the body is not JSON text and
    [r.json()] rejects). *)
Record response : Type := mk_response {
  status : Z;
  statusText : string;
  text : string;
  json : option Js.value
}.

(** [r.ok]: the status is in the range 200-299. *)
Definition ok (r : response) : bool :=
  (200 <=? status r)%Z && (status r <=? 299)%Z.

(** What a promise can reject with. *)
Inductive error : Type :=
| Error (message : string)   (* [new Error(message)] *)
| SyntaxError                (* [r.json()] on a body that is not JSON *)
| NetworkError.              (* [fetch] itself failed *)

Inductive outcome (A : Type) : Type :=
| Resolved (a : A)
| Rejected (e : error).
Arguments Resolved {A} a.
Arguments Rejected {A} e.

(** The network: the server's answer to the n-th request made so far, and
    the requests made, oldest first. *)
Record world : Type := mk_world {
  server : nat -> request -> outcome response;
  log : list request
}.

(** An [async] computation. *)
Definition async (A : Type) : Type := world -> outcome A * world.

Definition ret {A} (a : A) : async A := fun w => (Resolved a, w).

Definition throw {A} (e : error) : async A := fun w => (Rejected e, w).

Definition bind {A B} (m : async A) (k : A -> async B) : async B :=
  fun w =>
    match m w with
    | (Resolved a, w') => k a w'
    | (Rejected e, w') => (Rejected e, w')
    end.

Definition lift {A} (o : outcome A) : async A := fun w => (o, w).

(** [fetch(url, init)]: one request goes out and is answered. *)
Definition fetch (rq : request) : async response :=
  fun w => (server w (List.length (log w)) rq, mk_world (server w) (log w ++ [rq])).

End Http.

Declare Scope async_scope.
Delimit Scope async_scope with async.
Notation "'await' x <- m ;; k" := (Http.bind m (fun x => k))
  (at level 100, x name, m at next level, right associativity) : async_scope.

(* ================================================================== *)
(** ** services/nasaApi.ts *)
(* ================================================================== *)

Module NasaApi.
Import Http.
Local Open Scope async_scope.

(** [handleResp]. *)
Definition handleResp (r : response) : outcome Js.value :=
  if negb (ok r) then
    let txt := text r in
    Rejected (Error ("API " ++ Js.number_to_string (status r) ++ " "
                       ++ statusText r ++ ": " ++ txt))
  else
    match json r with
    | Some v => Resolved v
    | None => Rejected SyntaxError
    end.

(** An object built to the [SearchFilters] interface with all three
    properties present, as the Search page builds it. *)
Definition SearchFilters (query : string) (organisms missions : list string)
  : Js.value :=
  Js.Obj [("query", Js.Str query);
          ("organisms", Js.Arr (map Js.Str organisms));
          ("missions", Js.Arr (map Js.Str missions))].

Section Client.

(** [this.base], which is [API_BASE]. *)
Variable base : string.

Definition getDatasets (limit : Z) : async Js.value :=
  await res <- fetch (GET (base ++ "/datasets?limit=" ++ Js.number_to_string limit)) ;;
  lift (handleResp res).

(** The body is [JSON.stringify(filters || {})]. *)
Definition searchStudies (filters : Js.value) : async Js.value :=
  await res <- fetch (mk_request (base ++ "/search") "POST"
                        [("Content-Type", "application/json")]
                        (Some (Js.or filters (Js.Obj [])))) ;;
  lift (handleResp res).

Definition getOrganisms : async Js.value :=
  await res <- fetch (GET (base ++ "/organisms")) ;;
  lift (handleResp res).

Definition getMissions : async Js.value :=
  await res <- fetch (GET (base ++ "/missions")) ;;
  lift (handleResp res).

Definition getGraph (limit : Js.number) : async Js.value :=
  await res <- fetch (GET (base ++ "/graph?limit=" ++ Js.number_text limit)) ;;
  lift (handleResp res).

Definition getTimeline : async Js.value :=
  await res <- fetch (GET (base ++ "/timeline")) ;;
  lift (handleResp res).

Definition getInsights : async Js.value :=
  await res <- fetch (mk_request (base ++ "/insights") "POST" [] None) ;;
  lift (handleResp res).

Definition getMetadata (studyId : string) : async Js.value :=
  await res <- fetch (GET (base ++ "/study/" ++ Js.encodeURIComponent studyId)) ;;
  lift (handleResp res).

Definition getFiles (studyIds : string) (page size : Z) (all_files : bool)
  : async Js.value :=
  let url := base ++ "/files/" ++ Js.encodeURIComponent studyIds
               ++ "?page=" ++ Js.number_to_string page
               ++ "&size=" ++ Js.number_to_string size
               ++ "&all_files=" ++ Js.boolean_to_string all_files in
  await res <- fetch (GET url) ;;
  lift (handleResp res).

(** The defaults of the optional parameters. *)
Definition getDatasets_default : async Js.value := getDatasets 50.
Definition getGraph_default : async Js.value :=
  getGraph (Js.Integer 100 eq_refl).
Definition getFiles_default (studyIds : string) : async Js.value :=
  getFiles studyIds 0 25 false.

Definition summarize (txt : string) : async Js.value :=
  await res <- fetch (mk_request (base ++ "/summarize?text=" ++ Js.encodeURIComponent txt)
                        "POST" [] None) ;;
  lift (handleResp res).

Definition health : async Js.value :=
  await res <- fetch (GET (base ++ "/health")) ;;
  lift (handleResp res).

(** The calls the class offers, with their arguments. *)
Inductive call : Type :=
| GetDatasets (limit : Z)
| SearchStudies (filters : Js.value)
| GetOrganisms
| GetMissions
| GetGraph (limit : Js.number)
| GetTimeline
| GetInsights
| GetMetadata (studyId : string)
| GetFiles (studyIds : string) (page size : Z) (all_files : bool)
| Summarize (txt : string)
| Health.

Definition run (c : call) : async Js.value :=
  match c with
  | GetDatasets limit => getDatasets limit
  | SearchStudies f => searchStudies f
  | GetOrganisms => getOrganisms
  | GetMissions => getMissions
  | GetGraph limit => getGraph limit
  | GetTimeline => getTimeline
  | GetInsights => getInsights
  | GetMetadata i => getMetadata i
  | GetFiles i p s a => getFiles i p s a
  | Summarize t => summarize t
  | Health => health
  end.

End Client.
End NasaApi.

(* ================================================================== *)
(** ** hooks/useNasaData.ts *)
(* ================================================================== *)

Module Hooks.
Import Http.

(** What [useQuery] settles to for a query that has no cached data: the
    query function runs when the query is enabled, and is not called at all
    when it is disabled. *)
Inductive query_result : Type :=
| Idle
| Fetched (o : outcome Js.value).

(** react-query runs a rejected query function again, [retry] more times,
    before it reports the rejection; 3 is the library's default, and the
    hooks set no other. *)
Definition retry : nat := 3.

Fixpoint attempt (queryFn : async Js.value) (again : nat) (w : world)
  {struct again} : outcome Js.value * world :=
  match queryFn w with
  | (Resolved v, w') => (Resolved v, w')
  | (Rejected e, w') =>
      match again with
      | O => (Rejected e, w')
      | S fewer => attempt queryFn fewer w'
      end
  end.

(** The queries of one component are run here one after the other, each to
    its end.  (The library starts them together and waits between the runs
    of one query, so after a rejection the order of the requests may be
    another; which requests are sent, and how many at most, does not depend
    on it.) *)
Definition useQuery (queryFn : async Js.value) (enabled : bool)
  : world -> query_result * world :=
  fun w =>
    if enabled then let (o, w') := attempt queryFn retry w in (Fetched o, w')
    else (Idle, w).

(** Every answer of the backend is a success that [handleResp] accepts. *)
Definition answers_ok (w : world) : Prop :=
  forall n rq, exists r v,
    server w n rq = Resolved r /\ NasaApi.handleResp r = Resolved v.

(** No answer of the backend is one: the request fails, or [handleResp]
    rejects the response. *)
Definition answers_fail (w : world) : Prop :=
  forall n rq,
    (exists e, server w n rq = Rejected e) \/
    (exists r e, server w n rq = Resolved r /\ NasaApi.handleResp r = Rejected e).

(** [data] of the result: [undefined] until the query has resolved. *)
Definition data (q : query_result) : Js.value :=
  match q with
  | Fetched (Resolved v) => v
  | _ => Js.Undefined
  end.

Section Hooks.
Variable base : string.

(** The [enabled] option of [useSearch]. *)
Definition search_enabled (filters : Js.value) : bool :=
  Js.truthy
    (Js.and filters
       (Js.or (Js.get filters "query")
          (Js.or (Js.and (Js.get filters "organisms")
                         (Js.get (Js.get filters "organisms") "length"))
                 (Js.and (Js.get filters "missions")
                         (Js.get (Js.get filters "missions") "length"))))).

Definition useSearch (filters : Js.value) : world -> query_result * world :=
  useQuery (NasaApi.searchStudies base (Js.or filters (Js.Obj [])))
           (search_enabled filters).

Definition useKnowledgeGraph (limit : Js.number) : world -> query_result * world :=
  useQuery (NasaApi.getGraph base limit) true.

Definition useDatasets (limit : Z) : world -> query_result * world :=
  useQuery (NasaApi.getDatasets base limit) true.

Definition useOrganisms : world -> query_result * world :=
  useQuery (NasaApi.getOrganisms base) true.

Definition useMissions : world -> query_result * world :=
  useQuery (NasaApi.getMissions base) true.

Definition useTimeline : world -> query_result * world :=
  useQuery (NasaApi.getTimeline base) true.

Definition useInsights : world -> query_result * world :=
  useQuery (NasaApi.getInsights base) true.

(** A [studyId?: string] argument: [studyId || ""] and [!!studyId]. *)
Definition or_empty (studyId : option string) : string :=
  match studyId with
  | Some s => s
  | None => ""
  end.

Definition given (studyId : option string) : bool :=
  match studyId with
  | Some s => negb (String.eqb s "")
  | None => false
  end.

Definition useDatasetMetadata (studyId : option string)
  : world -> query_result * world :=
  useQuery (NasaApi.getMetadata base (or_empty studyId)) (given studyId).

Definition useDatasetFiles (studyId : option string) (page size : Z)
  : world -> query_result * world :=
  useQuery (NasaApi.getFiles base (or_empty studyId) page size false) (given studyId).

End Hooks.
End Hooks.

(* ================================================================== *)
(** ** components/GraphViewport.tsx *)
(* ================================================================== *)

Module GraphViewport.




End GraphViewport.

(* ================================================================== *)
(** ** pages/Laboratory.tsx *)
(* ================================================================== *)

Module Laboratory.

(** [graphData?.nodes || []] and [graphData?.edges || []]. *)
Definition nodes (graphData : Js.value) : Js.value :=
  Js.or (Js.opt_get graphData "nodes") (Js.Arr []).

Definition edges (graphData : Js.value) : Js.value :=
  Js.or (Js.opt_get graphData "edges") (Js.Arr []).

(** [(n.type || "").toLowerCase() === filterType].  Reading [n.type] of a
    member that is [null] or [undefined] throws, and [toLowerCase] exists on
    strings only ([None] is the [TypeError]). *)
Definition type_matches (filterType : string) (n : Js.value) : option bool :=
  match n with
  | Js.Undefined | Js.Null => None
  | _ =>
      match Js.or (Js.get n "type") (Js.Str "") with
      | Js.Str s => Some (String.eqb (Js.toLowerCase s) filterType)
      | _ => None
      end
  end.

(** [xs.filter(p)] for a predicate that may throw. *)
Fixpoint filter_throwing (p : Js.value -> option bool) (xs : list Js.value)
  : option (list Js.value) :=
  match xs with
  | [] => Some []
  | x :: rest =>
      match p x with
      | None => None
      | Some b =>
          match filter_throwing p rest with
          | None => None
          | Some ys => Some (if b then x :: ys else ys)
          end
      end
  end.

(** [filteredNodes]; [None] is a [TypeError] thrown while rendering. *)
Definition filteredNodes (nodes : Js.value) (filterType : string)
  : option Js.value :=
  if String.eqb filterType "all" then Some nodes
  else
    match nodes with
    | Js.Arr xs => option_map Js.Arr (filter_throwing (type_matches filterType) xs)
    | _ => None
    end.

(** The filter buttons of the page. *)
Definition filter_buttons : list string :=
  ["all"; "experiment"; "organism"; "mission"; "publication"].

(** The [nodes] and [edges] properties computed for [GraphViewport] (the
    same render goes on to [summary_line] below). *)
Definition viewport_props (graphData : Js.value) (filterType : string)
  : option (Js.value * Js.value) :=
  match filteredNodes (nodes graphData) filterType with
  | Some ns => Some (ns, edges graphData)
  | None => None
  end.

(** The statistics panel: [nodes.filter(n => n.type === t).length]. *)
Definition of_type (t : string) (n : Js.value) : bool :=
  Js.is_string (Js.get n "type") t.

Definition count_of_type (t : string) (nodes : list Js.value) : nat :=
  List.length (filter (of_type t) nodes).



(** The node is there (not [null], not [undefined]) and its type is text,
    or falsy (so that [""] stands in for it). *)
Definition text_typed (n : Js.value) : bool :=
  match n with
  | Js.Undefined | Js.Null => false
  | _ =>
      match Js.or (Js.get n "type") (Js.Str "") with
      | Js.Str _ => true
      | _ => false
      end
  end.

(** The text consists of ASCII characters, on which [Js.toLowerCase] is
    [String.prototype.toLowerCase]. *)
Fixpoint is_ascii (s : string) : bool :=
  match s with
  | EmptyString => true
  | String c rest => Nat.ltb (nat_of_ascii c) 128 && is_ascii rest
  end.

(** The node is there and its type is ASCII text, or falsy. *)
Definition ascii_typed (n : Js.value) : bool :=
  match n with
  | Js.Undefined | Js.Null => false
  | _ =>
      match Js.or (Js.get n "type") (Js.Str "") with
      | Js.Str s => is_ascii s
      | _ => false
      end
  end.

(** [`${v.length}`] for [v] read off [graphData]: reading [length] of
    [null] or [undefined] throws. *)
Definition length_text (v : Js.value) : option string :=
  match v with
  | Js.Undefined | Js.Null => None
  | _ => Some (Js.to_text (Js.get v "length"))
  end.

(** The line under the graph:
    [graphData ? `${graphData.nodes.length} nodes • ${graphData.edges.length} connections` : ""]
    ([None] is the [TypeError]). *)
Definition summary_line (graphData : Js.value) : option string :=
  if Js.truthy graphData then
    match length_text (Js.get graphData "nodes"),
          length_text (Js.get graphData "edges") with
    | Some ns, Some es => Some (ns ++ " nodes • " ++ es ++ " connections")
    | _, _ => None
    end
  else Some "".

(** The node passes the type filter. *)
Definition kept_by (filterType : string) (n : Js.value) : bool :=
  match type_matches filterType n with
  | Some true => true
  | _ => false
  end.

End Laboratory.

(* ================================================================== *)
(** ** pages/Search.tsx *)
(* ================================================================== *)

Module SearchPage.

Record state : Type := mk_state {
  query : string;
  selectedOrganisms : list string;
  selectedMissions : list string
}.

Definition filters (st : state) : Js.value :=
  NasaApi.SearchFilters (query st) (selectedOrganisms st) (selectedMissions st).

(** [disabled] of the Search button:
    [!query && selectedOrganisms.length === 0 && selectedMissions.length === 0]. *)
Definition button_disabled (st : state) : bool :=
  Js.not (Js.Str (query st))
  && Nat.eqb (List.length (selectedOrganisms st)) 0
  && Nat.eqb (List.length (selectedMissions st)) 0.

(** [hasFilters]:
    [query || selectedOrganisms.length > 0 || selectedMissions.length > 0]. *)
Definition hasFilters (st : state) : Js.value :=
  Js.or (Js.or (Js.Str (query st))
               (Js.Bool (Nat.ltb 0 (List.length (selectedOrganisms st)))))
        (Js.Bool (Nat.ltb 0 (List.length (selectedMissions st)))).

(** A click on a badge:
    [prev.includes(o) ? prev.filter(x => x !== o) : [...prev, o]]. *)
Definition toggle (o : string) (prev : list string) : list string :=
  if existsb (String.eqb o) prev
  then filter (fun x => negb (String.eqb x o)) prev
  else (prev ++ [o])%list.

Definition toggleOrganism (o : string) (st : state) : state :=
  mk_state (query st) (toggle o (selectedOrganisms st)) (selectedMissions st).

Definition toggleMission (m : string) (st : state) : state :=
  mk_state (query st) (selectedOrganisms st) (toggle m (selectedMissions st)).

(** The four queries of the page, in the order the component calls its
    hooks. *)
Record queries : Type := mk_queries {
  organisms_q : Hooks.query_result;
  missions_q : Hooks.query_result;
  initial_q : Hooks.query_result;
  search_q : Hooks.query_result
}.

(** The state the component starts in: [useState("")], [useState([])]. *)
Definition initial : state := mk_state "" [] [].

(** The page when it mounts, with nothing of its queries in the query
    cache. *)
Definition mount (base : string) : Http.world -> queries * Http.world :=
  fun w =>
    let (q1, w1) := Hooks.useOrganisms base w in
    let (q2, w2) := Hooks.useMissions base w1 in
    let (q3, w3) := Hooks.useDatasets base 20 w2 in
    let (q4, w4) := Hooks.useSearch base (filters initial) w3 in
    (mk_queries q1 q2 q3 q4, w4).

(** [results]: [hasFilters ? searchResults : initialDatasets]. *)
Definition results (st : state) (qs : queries) : Js.value :=
  if Js.truthy (hasFilters st) then Hooks.data (search_q qs)
  else Hooks.data (initial_q qs).

End SearchPage.

(* ================================================================== *)
(** ** pages/DatasetDetail.tsx *)
(* ================================================================== *)

Module DatasetDetail.

(** The two queries of the page for the route parameter [id], when the page
    mounts with nothing of them in the query cache. *)
Definition queries (base : string) (id : option string)
  : Http.world -> (Hooks.query_result * Hooks.query_result) * Http.world :=
  fun w =>
    let (metaQ, w1) := Hooks.useDatasetMetadata base id w in
    let (filesQ, w2) := Hooks.useDatasetFiles base id 0 25 w1 in
    ((metaQ, filesQ), w2).

(** The backend path offered for a file that has no address of its own:
    [`${VITE_API_BASE || ""}/osdr/files/${encodeURIComponent(id || '')}`]. *)
Definition backend_path (api_base id : option string) : string :=
  Hooks.or_empty api_base ++ "/osdr/files/" ++ Js.encodeURIComponent (Hooks.or_empty id).

(** [f.remote_url || f.download_url || f.url || ""]. *)
Definition own_url (f : Js.value) : Js.value :=
  Js.or (Js.or (Js.or (Js.get f "remote_url") (Js.get f "download_url"))
               (Js.get f "url"))
        (Js.Str "").

(** The [href] of a file's Download link; [startsWith] exists on strings
    only ([None] is the [TypeError]). *)
Definition href (api_base id : option string) (f : Js.value) : option string :=
  match own_url f with
  | Js.Str u =>
      let url := if negb (String.eqb u "") && String.prefix "/" u
                 then backend_path api_base id else u in
      Some (if String.prefix "http" url then url else backend_path api_base id)
  | _ => None
  end.

End DatasetDetail.

(* ================================================================== *)
(** ** pages/Dashboard.tsx *)
(* ================================================================== *)

Module Dashboard.

(** [datasets?.count ?? datasets?.data?.length ?? 0]. *)
Definition loadedCount (datasets : Js.value) : Js.value :=
  Js.coalesce
    (Js.coalesce (Js.opt_get datasets "count")
                 (Js.opt_get (Js.opt_get datasets "data") "length"))
    (Js.Num 0).

(** [datasets?.total ?? 138000]. *)
Definition totalCount (datasets : Js.value) : Js.value :=
  Js.coalesce (Js.opt_get datasets "total") (Js.Num 138000).

(** The datasets that get a card: [(datasets?.data || []).slice(0, 50)];
    [None] when [data] is neither missing nor an array. *)
Definition cards (datasets : Js.value) : option (list Js.value) :=
  match Js.or (Js.opt_get datasets "data") (Js.Arr []) with
  | Js.Arr xs => Some (firstn 50 xs)
  | _ => None
  end.

End Dashboard.

(* ================================================================== *)
(** ** components/MissionCard.tsx *)
(* ================================================================== *)

Module MissionCard.

(** [title || "Untitled Study"]. *)
Definition shown_title (title : string) : string :=
  if String.eqb title "" then "Untitled Study" else title.

(** [description.length > 120 ? `${description.slice(0, 120)}...` : description],
    on ASCII text. *)
Definition shown_description (description : string) : string :=
  if Nat.ltb 120 (String.length description)
  then String.substring 0 120 description ++ "..."
  else description.

End MissionCard.

(* ================================================================== *)
(** ** components/Navbar.tsx *)
(* ================================================================== *)

Module Navbar.

Definition navLinks : list (string * string) :=
  [("/", "Mission Control"); ("/laboratory", "Laboratory");
   ("/search", "Neural Search"); ("/publication", "Publication Analysis")].

(** [isActive]: [location.pathname === p]. *)
Definition isActive (pathname p : string) : bool := String.eqb pathname p.

(** The links drawn as active. *)
Definition active_links (pathname : string) : list (string * string) :=
  filter (fun ln => isActive pathname (fst ln)) navLinks.

End Navbar.

(* ================================================================== *)
(** ** pages/Training.tsx and pages/Publication.tsx *)
(* ================================================================== *)

Module Training.

Record state : Type := mk_state {
  loading : bool;
  healthData : Js.value
}.

(** [checkSystemHealth], from the click to the last [setLoading(false)]. *)
Definition checkSystemHealth (base : string) (st : state)
  : Http.world -> state * Http.world :=
  fun w =>
    match NasaApi.health base w with
    | (Http.Resolved health, w') => (mk_state false health, w')
    | (Http.Rejected _, w') =>
        (mk_state false (Js.Obj [("error", Js.Str "Failed to check system health")]), w')
    end.

(** What the health card shows: nothing, the error line, or the status. *)
Inductive shown : Type :=
| Nothing
| ErrorLine (message : Js.value)
| Status (healthy : bool).

Definition health_card (st : state) : shown :=
  if Js.truthy (healthData st) then
    if Js.truthy (Js.get (healthData st) "error")
    then ErrorLine (Js.get (healthData st) "error")
    else Status (Js.truthy (Js.get (healthData st) "ok"))
  else Nothing.

End Training.

Module Publication.

Record state : Type := mk_state {
  textToSummarize : string;
  summary : Js.value;
  loading : bool
}.

(** [handleSummarize]: nothing happens on blank text. *)
Definition handleSummarize (base : string) (st : state)
  : Http.world -> state * Http.world :=
  fun w =>
    if Js.blank (textToSummarize st) then (st, w)
    else
      match NasaApi.summarize base (textToSummarize st) w with
      | (Http.Resolved result, w') => (mk_state (textToSummarize st) result false, w')
      | (Http.Rejected _, w') =>
          (mk_state (textToSummarize st)
                    (Js.Obj [("error", Js.Str "Failed to generate summary")]) false, w')
      end.

(** [disabled] of the button: [!textToSummarize.trim() || loading]. *)
Definition button_disabled (st : state) : bool :=
  Js.blank (textToSummarize st) || loading st.

End Publication.

(* ================================================================== *)
(** ** The backend core (modelled from the specification) *)
(* ================================================================== *)

Module Aggregator.

(** Modelled from the spec: a raw search hit of the upstream search API,
    reduced to the fields the aggregation reads. *)
Record SearchHit : Type := mk_hit {
  hit_id : string;
  hit_title : string;
  hit_description : string;
  hit_organism : option string;
  hit_mission : option string;
  hit_release_date : option string
}.

(** Modelled from the spec: what the metadata API adds for one study. *)
Record Metadata : Type := mk_metadata {
  md_organism : option string;
  md_mission : option string;
  md_release_date : option string
}.

(** Modelled from the spec: the DatasetRecord of the data model; the raw
    source payload is the hit the record came from. *)
Record DatasetRecord : Type := mk_record {
  identifier : string;
  title : string;
  description : string;
  organism : option string;
  mission : option string;
  release_date : option string;
  raw : SearchHit
}.

(** Modelled from the spec: the accepted prefix set of the genuine-study
    filter. *)
Definition accepted_prefixes : list string := ["OSD-"; "GLDS-"].

(** Modelled from the spec: step 2, the identifier matches an accepted
    prefix. *)
Definition accepted (id : string) : bool :=
  existsb (fun p => String.prefix p id) accepted_prefixes.

(** Modelled from the spec: an optional field that is there and not the
    empty text. *)
Definition nonempty (field : option string) : bool :=
  match field with
  | Some s => negb (String.eqb s "")
  | None => false
  end.

(** Modelled from the spec: step 1, the record a hit gives on its own. *)
Definition of_hit (h : SearchHit) : DatasetRecord :=
  mk_record (hit_id h) (hit_title h) (hit_description h)
            (hit_organism h) (hit_mission h) (hit_release_date h) h.

(** Modelled from the spec: enrichment of one field.  A field the record
    already has is kept; a missing one is taken from the metadata. *)
Definition fill (own extra : option string) : option string :=
  if nonempty own then own else extra.

(** Modelled from the spec: step 3, enrichment with the metadata fields when
    the lookup succeeds; when it fails ([None]) the record is kept as it
    is. *)
Definition enrich (metadataLookup : string -> option Metadata) (r : DatasetRecord)
  : DatasetRecord :=
  match metadataLookup (identifier r) with
  | None => r
  | Some md =>
      mk_record (identifier r) (title r) (description r)
                (fill (organism r) (md_organism md))
                (fill (mission r) (md_mission md))
                (fill (release_date r) (md_release_date md))
                (raw r)
  end.

(** Modelled from the spec: how metadata-complete a record is, counted on
    organism and mission as step 4 explains it. *)
Definition completeness (r : DatasetRecord) : nat :=
  (if nonempty (organism r) then 1 else 0) + (if nonempty (mission r) then 1 else 0).

(** Modelled from the spec: step 4 for one record.  A record whose identifier
    is already kept takes the place of the kept one when it is strictly more
    complete; ties keep the earlier one; a new identifier goes last. *)
Fixpoint merge_into (r : DatasetRecord) (kept : list DatasetRecord)
  : list DatasetRecord :=
  match kept with
  | [] => [r]
  | x :: rest =>
      if String.eqb (identifier x) (identifier r)
      then (if Nat.ltb (completeness x) (completeness r) then r else x) :: rest
      else x :: merge_into r rest
  end.

(** Modelled from the spec: step 4, over the records in search-hit order. *)
Definition dedup (rs : list DatasetRecord) : list DatasetRecord :=
  fold_left (fun kept r => merge_into r kept) rs [].

(** Modelled from the spec: steps 1 to 3, the enriched records of the hits
    that pass the filter, before deduplication. *)
Definition candidates (searchHits : list SearchHit)
  (metadataLookup : string -> option Metadata) : list DatasetRecord :=
  map (enrich metadataLookup)
      (map of_hit (filter (fun h => accepted (hit_id h)) searchHits)).

(** Modelled from the spec: [aggregate(searchHits, metadataLookup)] of the
    backend's Aggregator/Filter, whose code is not in the source tree; steps
    1 to 4 of section 4.3 in order. *)
Definition aggregate (searchHits : list SearchHit)
  (metadataLookup : string -> option Metadata) : list DatasetRecord :=
  dedup (candidates searchHits metadataLookup).

(** A hit that carries an identifier and, possibly, an organism. *)
Definition bare_hit (id : string) (org : option string) : SearchHit :=
  mk_hit id "" "" org None None.

End Aggregator.

Module GraphBuilder.
Import Aggregator.

(** Modelled from the spec: the node types of the data model. *)
Inductive node_type : Type := Study | Organism | Mission | Publication.

Definition node_type_eqb (a b : node_type) : bool :=
  match a, b with
  | Study, Study | Organism, Organism | Mission, Mission
  | Publication, Publication => true
  | _, _ => false
  end.

Definition type_name (t : node_type) : string :=
  match t with
  | Study => "study" | Organism => "organism"
  | Mission => "mission" | Publication => "publication"
  end.

(** Modelled from the spec: GraphNode, GraphEdge and the snapshot of the
    data model. *)
Record GraphNode : Type := mk_node {
  node_id : string;
  node_label : string;
  node_kind : node_type
}.

Record GraphEdge : Type := mk_edge {
  edge_source : string;
  edge_target : string;
  edge_label : option string
}.

Record Graph : Type := mk_graph {
  nodes : list GraphNode;
  edges : list GraphEdge
}.

Definition empty : Graph := mk_graph [] [].

(** Modelled from the spec: a study node has the study's identifier; an
    entity node has an identifier fixed by its type and label. *)
Definition entity_id (t : node_type) (label : string) : string :=
  type_name t ++ ":" ++ label.

(** Modelled from the spec: reuse is by label, among the nodes of the
    entity's type. *)
Definition is_entity (t : node_type) (label : string) (n : GraphNode) : bool :=
  node_type_eqb (node_kind n) t && String.eqb (node_label n) label.

Definition find_entity (t : node_type) (label : string) (ns : list GraphNode)
  : option GraphNode :=
  find (is_entity t label) ns.

Definition joins (src tgt : string) (e : GraphEdge) : bool :=
  String.eqb (edge_source e) src && String.eqb (edge_target e) tgt.

Definition has_edge (src tgt : string) (es : list GraphEdge) : bool :=
  existsb (joins src tgt) es.

(** Modelled from the spec: an edge is added unless one is already there
    between the same ordered pair. *)
Definition add_edge (src tgt : string) (g : Graph) : Graph :=
  if has_edge src tgt (edges g) then g
  else mk_graph (nodes g) (edges g ++ [mk_edge src tgt None]).

(** Modelled from the spec: create or reuse (by label) the entity node of a
    record's organism or mission, and link the study to it. *)
Definition link_entity (t : node_type) (study_id : string)
  (field : option string) (g : Graph) : Graph :=
  match field with
  | None => g
  | Some label =>
      if String.eqb label "" then g
      else
        match find_entity t label (nodes g) with
        | Some n => add_edge study_id (node_id n) g
        | None =>
            add_edge study_id (entity_id t label)
              (mk_graph (nodes g ++ [mk_node (entity_id t label) label t]) (edges g))
        end
  end.

(** Modelled from the spec: one record, its study node first, then its
    organism, then its mission. *)
Definition add_record (g : Graph) (r : DatasetRecord) : Graph :=
  let g1 := mk_graph (nodes g ++ [mk_node (identifier r) (title r) Study]) (edges g) in
  let g2 := link_entity Organism (identifier r) (organism r) g1 in
  link_entity Mission (identifier r) (mission r) g2.

(** Modelled from the spec: [buildGraph(records, limit)] of the backend's
    Graph Builder, whose code is not in the source tree; the algorithm of
    section 4.4 over the first [limit] records. *)
Definition buildGraph (records : list DatasetRecord) (limit : nat) : Graph :=
  fold_left add_record (firstn limit records) empty.

(** Counting, for the statements below. *)
Definition count_entities (t : node_type) (label : string) (g : Graph) : nat :=
  List.length (filter (is_entity t label) (nodes g)).

Definition count_kind (t : node_type) (g : Graph) : nat :=
  List.length (filter (fun n => node_type_eqb (node_kind n) t) (nodes g)).

Definition count_edges_into (tgt : string) (g : Graph) : nat :=
  List.length (filter (fun e => String.eqb (edge_target e) tgt) (edges g)).

Definition endpoints (e : GraphEdge) : string * string :=
  (edge_source e, edge_target e).

Definition nodes_of_kind (t : node_type) (g : Graph) : list GraphNode :=
  filter (fun n => node_type_eqb (node_kind n) t) (nodes g).

Definition edges_into (tgt : string) (g : Graph) : list GraphEdge :=
  filter (fun e => String.eqb (edge_target e) tgt) (edges g).

(** Every organism node carries the identifier its label fixes. *)
Definition organism_ids_fixed (g : Graph) : Prop :=
  forall n, In n (nodes g) -> node_kind n = Organism ->
            node_id n = entity_id Organism (node_label n).

(** The mission nodes of [g] are [ms], the edges into the node of the
    mission [label] are [es], organism nodes are named as they should. *)
Definition tracks (label : string) (g : Graph) (ms : list GraphNode)
  (es : list GraphEdge) : Prop :=
  nodes_of_kind Mission g = ms /\
  edges_into (entity_id Mission label) g = es /\
  organism_ids_fixed g.

(** Every edge joins two nodes of the graph. *)
Definition closed (g : Graph) : Prop :=
  forall e, In e (edges g) ->
    In (edge_source e) (map node_id (nodes g)) /\
    In (edge_target e) (map node_id (nodes g)).

(** The scenario's mission. *)
Definition iss : string := "ISS Expedition 65".

(** Modelled from the spec: the success shape of [GET /graph],
    [{nodes: GraphNode[], edges: GraphEdge[]}]; the backend route that
    answers the request is not in the source tree. *)
Definition node_json (n : GraphNode) : Js.value :=
  Js.Obj [("id", Js.Str (node_id n)); ("label", Js.Str (node_label n));
          ("type", Js.Str (type_name (node_kind n)))].

Definition edge_json (e : GraphEdge) : Js.value :=
  Js.Obj ([("source", Js.Str (edge_source e)); ("target", Js.Str (edge_target e))]
          ++ match edge_label e with
             | Some l => [("label", Js.Str l)]
             | None => []
             end)%list.

Definition graph_json (g : Graph) : Js.value :=
  Js.Obj [("nodes", Js.Arr (map node_json (nodes g)));
          ("edges", Js.Arr (map edge_json (edges g)))].

End GraphBuilder.

Module GraphRoute.

(** What is left of [s] after the prefix [p], if [s] starts with it. *)
Fixpoint strip (p s : string) : option string :=
  match p with
  | EmptyString => Some s
  | String c p' =>
      match s with
      | EmptyString => None
      | String d s' => if Ascii.eqb c d then strip p' s' else None
      end
  end.

(** Modelled from the spec: the [limit] of [GET /graph?limit], a natural
    number written in decimal digits; anything else is malformed input. *)
Definition parse_limit (text : string) : option nat :=
  match NilZero.int_of_string text with
  | Some d => if (0 <=? Z.of_int d)%Z then Some (Z.to_nat (Z.of_int d)) else None
  | None => None
  end.

(** Modelled from the spec: the backend route [GET /graph?limit], whose code
    is not in the source tree.  It answers with the snapshot built from the
    aggregated records, in the success shape [{nodes, edges}]; malformed
    input is a ValidationError, and no other route is modelled here. *)
Definition serve (base : string) (records : list Aggregator.DatasetRecord)
  (rq : Http.request) : Http.outcome Http.response :=
  match strip (base ++ "/graph?limit=") (Http.url rq) with
  | Some text =>
      if negb (String.eqb (Http.method rq) "GET")
      then Http.Resolved (Http.mk_response 405 "Method Not Allowed" "Method Not Allowed" None)
      else
        match parse_limit text with
        | Some limit =>
            Http.Resolved
              (Http.mk_response 200 "OK" ""
                 (Some (GraphBuilder.graph_json (GraphBuilder.buildGraph records limit))))
        | None =>
            Http.Resolved
              (Http.mk_response 422 "Unprocessable Entity" "limit is not a natural number" None)
        end
  | None => Http.Resolved (Http.mk_response 404 "Not Found" "Not Found" None)
  end.

(** A network on which this backend answers. *)
Definition backend (base : string) (records : list Aggregator.DatasetRecord)
  (sent : list Http.request) : Http.world :=
  Http.mk_world (fun _ rq => serve base records rq) sent.

End GraphRoute.

Module Cache.

(** Modelled from the spec: a parameter mapping as the caller wrote it, keys
    in the caller's order, each key once. *)
Definition params : Type := list (string * string).

Definition well_formed (p : params) : Prop := NoDup (map fst p).

(** Modelled from the spec: the canonical order, which is the order of the
    keys. *)
Definition key_leb (a b : string * string) : bool := String.leb (fst a) (fst b).

Fixpoint insert (x : string * string) (sorted : list (string * string))
  : list (string * string) :=
  match sorted with
  | [] => [x]
  | y :: rest => if key_leb x y then x :: sorted else y :: insert x rest
  end.

Definition sort (p : params) : list (string * string) :=
  fold_right insert [] p.

(** Modelled from the spec: the sorted parameters written one after the
    other, [kv] between a key and its value and [pair] between two
    parameters (either may be empty). *)
Fixpoint render_with (kv pair : string) (ps : list (string * string)) : string :=
  match ps with
  | [] => ""
  | (k, v) :: rest =>
      k ++ kv ++ v
        ++ match rest with
           | [] => ""
           | _ => pair ++ render_with kv pair rest
           end
  end.

(** Modelled from the spec: the fingerprint key of a cache entry, the
    logical endpoint name concatenated with the parameters sorted into the
    canonical order (section 4.2); [head] stands between the two. *)
Definition fingerprint_with (head kv pair : string) (endpoint : string) (p : params)
  : string :=
  endpoint ++ head ++ render_with kv pair (sort p).

(** Modelled from the spec: the fingerprint function of the backend's
    Result Cache, whose code is not in the source tree (section 4.2).  The
    spec names no separators; the key is written here the way a query string
    is, [endpoint?k1=v1&k2=v2]. *)
Definition fingerprint (endpoint : string) (p : params) : string :=
  fingerprint_with "?" "=" "&" endpoint p.



(** The value a mapping gives a key. *)
Fixpoint value_of (k : string) (p : params) : option string :=
  match p with
  | [] => None
  | (k', v) :: rest => if String.eqb k k' then Some v else value_of k rest
  end.

End Cache.

Module Gateway.

Section Gateway.
(** The normalised payload of a successful upstream answer. *)
Variable Payload : Type.

(** Modelled from the spec: what one attempt against the upstream API ends
    in, an HTTP answer or a network failure. *)
Inductive attempt : Type :=
| Answer (status : Z) (payload : Payload)
| NetworkFailure.

(** Modelled from the spec: the error taxonomy, as far as the gateway
    raises it. *)
Inductive failure : Type :=
| RemoteUnavailable
| NotFound
| Refused (status : Z).

Inductive result : Type :=
| Ok (payload : Payload)
| Err (f : failure).

Inductive verdict : Type :=
| Deliver
| Retry
| FailFast (f : failure).

(** Modelled from the spec: 5xx and rate limiting (429) are retried, 404 is
    NotFound, any other 4xx fails fast. *)
Definition classify (status : Z) : verdict :=
  if (200 <=? status)%Z && (status <=? 299)%Z then Deliver
  else if (status =? 404)%Z then FailFast NotFound
  else if (status =? 429)%Z then Retry
  else if (500 <=? status)%Z && (status <=? 599)%Z then Retry
  else FailFast (Refused status).

(** Modelled from the spec: the bounded retry.  [budget] attempts remain,
    [made] attempts were made; the upstream's answer to attempt number [n]
    is [upstream n].  The result comes with the number of attempts made. *)
Fixpoint attempts (budget : nat) (upstream : nat -> attempt) (made : nat)
  : result * nat :=
  match budget with
  | O => (Err RemoteUnavailable, made)
  | S budget' =>
      match upstream made with
      | NetworkFailure => attempts budget' upstream (S made)
      | Answer status payload =>
          match classify status with
          | Deliver => (Ok payload, S made)
          | Retry => attempts budget' upstream (S made)
          | FailFast f => (Err f, S made)
          end
      end
  end.

(** Modelled from the spec: one call of the backend's Remote Data Gateway,
    [fetchSearch] or [fetchMetadata], whose code is not in the source tree
    (section 4.1), with its budget of attempts. *)
Definition fetch (budget : nat) (upstream : nat -> attempt) : result * nat :=
  attempts budget upstream 0.

End Gateway.

Arguments Answer {Payload} status payload.
Arguments NetworkFailure {Payload}.
Arguments Ok {Payload} payload.
Arguments Err {Payload} f.
Arguments attempts {Payload} budget upstream made.
Arguments fetch {Payload} budget upstream.

End Gateway.

Module Snapshot.

(** The invariant of a graph snapshot, read off the node and edge objects
    that reach the renderer. *)
Definition ids (ns : list Js.value) : list Js.value :=
  map (fun n => Js.get n "id") ns.

Definition endpoints_present (ns es : list Js.value) : Prop :=
  forall e, In e es ->
    In (Js.get e "source") (ids ns) /\ In (Js.get e "target") (ids ns).

Definition no_self_loops (es : list Js.value) : Prop :=
  forall e, In e es -> Js.get e "source" <> Js.get e "target".

Definition well_formed (nodes edges : Js.value) : Prop :=
  exists ns es,
    nodes = Js.Arr ns /\ edges = Js.Arr es /\
    endpoints_present ns es /\ no_self_loops es.

End Snapshot.

(** [needle] occurs in [hay]. *)
Definition occurs_in (needle hay : string) : Prop :=
  exists before after, hay = before ++ needle ++ after.

(** Every character of [s] passes [p]. *)
Fixpoint all_chars (p : ascii -> bool) (s : string) : bool :=
  match s with
  | EmptyString => true
  | String c rest => p c && all_chars p rest
  end.

(** The message of the error [handleResp] throws. *)
Definition api_message (r : Http.response) : string :=
  "API " ++ Js.number_to_string (Http.status r) ++ " " ++ Http.statusText r
    ++ ": " ++ Http.text r.

(** The development server's address, the default of [API_BASE]. *)
Definition localhost : string := "http://localhost:8000/api".

(** A backend that answers every request with the snapshot [g]. *)
Definition serves_graph (g : GraphBuilder.Graph) : Http.world :=
  Http.mk_world
    (fun _ _ => Http.Resolved
                  (Http.mk_response 200 "OK" "" (Some (GraphBuilder.graph_json g))))
    [].

(** A study of mice, as the aggregation delivers it. *)
Definition mouse_study : Aggregator.DatasetRecord :=
  Aggregator.of_hit (Aggregator.bare_hit "OSD-1" (Some "Mus musculus")).

(** The search hits of the aggregation scenario. *)
Definition scenario_hits : list Aggregator.SearchHit :=
  [Aggregator.bare_hit "OSD-1" None;
   Aggregator.bare_hit "FOO-2" None;
   Aggregator.bare_hit "OSD-1" (Some "Mus musculus")].

(** A metadata API that has nothing for any identifier. *)
Definition no_metadata : string -> option Aggregator.Metadata := fun _ => None.

(** A kept record [r'] stands for [r]: same identifier, at least as
    complete. *)
Definition covers (out : list Aggregator.DatasetRecord) (r : Aggregator.DatasetRecord)
  : Prop :=
  exists r', In r' out /\
             Aggregator.identifier r' = Aggregator.identifier r /\
             Aggregator.completeness r <= Aggregator.completeness r'.

(** The identifier starts with one of the accepted prefixes. *)
Definition genuine (id : string) : Prop :=
  (exists rest, id = "OSD-" ++ rest) \/ (exists rest, id = "GLDS-" ++ rest).

Definition page_then_limit : Cache.params := [("page", "0"); ("limit", "50")].

(** Two mappings over the keys [a] and [b] whose values hold the signs the
    key is written with: the first gives [a] a value that reads like a value
    followed by a parameter [b], the second gives [b] such a value. *)
Definition long_first_value (kv pair : string) : Cache.params :=
  [("a", "x" ++ pair ++ "b" ++ kv ++ "y"); ("b", "z")].
Definition long_second_value (kv pair : string) : Cache.params :=
  [("a", "x"); ("b", "y" ++ pair ++ "b" ++ kv ++ "z")].

(** An upstream that answers 503 three times and then 200 with [payload]. *)
Definition recovers_on_fourth (payload : string) : nat -> Gateway.attempt string :=
  fun n => if Nat.ltb n 3 then Gateway.Answer 503 "" else Gateway.Answer 200 payload.

(** An upstream that does not know the study. *)
Definition unknown_study : nat -> Gateway.attempt string :=
  fun _ => Gateway.Answer 404 "".

(** Two studies flown on the same mission. *)
Definition iss_study (id : string) : Aggregator.DatasetRecord :=
  Aggregator.mk_record id "" "" None (Some GraphBuilder.iss) None
    (Aggregator.bare_hit id None).

(** The snapshot the backend builds from that one study: the study node, the
    organism node and the edge between them. *)
Definition mouse_graph : Js.value :=
  GraphBuilder.graph_json (GraphBuilder.buildGraph [mouse_study] 200).

(** A backend that answers every request with 404. *)
Definition knows_nothing : Http.world :=
  Http.mk_world (fun _ _ => Http.Resolved (Http.mk_response 404 "Not Found" "" None)) [].

(** A response with an ok status whose body is not JSON text. *)
Definition html_page : Http.response :=
  Http.mk_response 200 "OK" "<html></html>" None.

(* ================================================================== *)
(** * Properties of the client *)
(* ================================================================== *)

Module NasaApiFacts.
Import Http NasaApi.

Lemma occurs_in_middle (a b c : string) : occurs_in b (a ++ b ++ c).
Proof. exists a, c. reflexivity. Qed.

Lemma occurs_in_end (a b : string) : occurs_in b (a ++ b).
Proof.
  exists a, "". f_equal.
  induction b as [|ch b IH]; simpl; [reflexivity | now rewrite <- IH].
Qed.

Lemma append_assoc (a b c : string) : (a ++ b) ++ c = a ++ b ++ c.
Proof. induction a as [|ch a IH]; simpl; [reflexivity | now rewrite IH]. Qed.

Lemma handleResp_not_ok (r : response) :
  ok r = false -> handleResp r = Rejected (Error (api_message r)).
Proof. intros H. unfold handleResp. rewrite H. reflexivity. Qed.

Lemma handleResp_ok (r : response) :
  ok r = true ->
  handleResp r = match json r with
                 | Some v => Resolved v
                 | None => Rejected SyntaxError
                 end.
Proof. intros H. unfold handleResp. rewrite H. reflexivity. Qed.

Lemma api_message_mentions (r : response) :
  occurs_in (Js.number_to_string (status r)) (api_message r) /\
  occurs_in (text r) (api_message r).
Proof.
  unfold api_message. split.
  - apply (occurs_in_middle "API ").
  - replace ("API " ++ Js.number_to_string (status r) ++ " " ++ statusText r ++ ": " ++ text r)
      with (("API " ++ Js.number_to_string (status r) ++ " " ++ statusText r ++ ": ") ++ text r).
    + apply occurs_in_end.
    + now rewrite !append_assoc.
Qed.

(** Every method is one [fetch] followed by [handleResp]. *)
Lemma fetch_then_handle (rq : request) (w : world) :
  (Http.bind (fetch rq) (fun res => lift (handleResp res))) w =
  (match server w (List.length (log w)) rq with
   | Resolved r => handleResp r
   | Rejected e => Rejected e
   end,
   mk_world (server w) (log w ++ [rq])).
Proof.
  unfold Http.bind, fetch, lift.
  destruct (server w (List.length (log w)) rq); reflexivity.
Qed.

Lemma run_single_request (base : string) (c : call) (w : world) :
  exists rq,
    run base c w =
    (match server w (List.length (log w)) rq with
     | Resolved r => handleResp r
     | Rejected e => Rejected e
     end,
     mk_world (server w) (log w ++ [rq])).
Proof.
  destruct c; simpl; eexists; apply fetch_then_handle.
Qed.

End NasaApiFacts.

Module HandleResp.
Import Http NasaApi NasaApiFacts.

(** C8, as stated, does not hold: [handleResp] does not return the parsed
    body of every response whose status is ok.  On a 200 response whose body
    is not JSON, [r.json()] rejects and so does [handleResp]; the status is
    ok and nothing is returned. *)
Lemma handleResp_ok_body_not_json :
  ok html_page = true /\
  handleResp html_page = Rejected SyntaxError /\
  ~ (forall r : response, ok r = true <-> exists v, handleResp r = Resolved v).
Proof.
  split; [reflexivity | split; [reflexivity |]].
  intros H. destruct (proj1 (H html_page) eq_refl) as [v Hv]. discriminate Hv.
Qed.

(** C8, amended: for every HTTP response, [handleResp] returns the parsed
    JSON body exactly when the status is ok and the body parses as JSON; on
    an ok status with a body that does not parse it rejects with the parser's
    error; it throws an [Error] exactly when the status is not ok, and the
    message of that error contains the status code and the response text.
    Every [NasaApi] method sends exactly one request and ends as
    [handleResp] does on the answer (or as [fetch] does when it rejects):
    there is no retry on the client side. *)
Theorem handleResp_behaviour :
  forall (r : response) (base : string) (c : call) (w : world),
    (forall v, handleResp r = Resolved v <-> ok r = true /\ json r = Some v) /\
    (handleResp r = Rejected SyntaxError <-> ok r = true /\ json r = None) /\
    ((exists msg, handleResp r = Rejected (Error msg)) <-> ok r = false) /\
    (forall msg, handleResp r = Rejected (Error msg) ->
       occurs_in (Js.number_to_string (status r)) msg /\ occurs_in (text r) msg) /\
    (exists rq,
       log (snd (run base c w)) = (log w ++ [rq])%list /\
       fst (run base c w) =
         match server w (List.length (log w)) rq with
         | Resolved answer => handleResp answer
         | Rejected e => Rejected e
         end).
Proof.
  intros r base c w.
  assert (Hrun : exists rq,
             log (snd (run base c w)) = (log w ++ [rq])%list /\
             fst (run base c w) =
               match server w (List.length (log w)) rq with
               | Resolved answer => handleResp answer
               | Rejected e => Rejected e
               end).
  { destruct (run_single_request base c w) as [rq Hrq].
    exists rq. rewrite Hrq. split; reflexivity. }
  destruct (ok r) eqn:Hok.
  - rewrite (handleResp_ok r Hok).
    destruct (json r) as [body|];
      (split; [| split; [| split; [| split; [| exact Hrun]]]]).
    + intros v. split; [intros H; inversion H; auto | intros [_ H]; inversion H; auto].
    + split; [discriminate | intros [_ H]; discriminate H].
    + split; [intros [msg H]; discriminate H | discriminate].
    + intros msg H. discriminate H.
    + intros v. split; [discriminate | intros [_ H]; discriminate H].
    + split; auto.
    + split; [intros [msg H]; discriminate H | discriminate].
    + intros msg H. discriminate H.
  - rewrite (handleResp_not_ok r Hok).
    split; [| split; [| split; [| split; [| exact Hrun]]]].
    + intros v. split; [discriminate | intros [H _]; discriminate H].
    + split; [discriminate | intros [H _]; discriminate H].
    + split; [reflexivity | intros _; eexists; reflexivity].
    + intros msg H. inversion H; subst msg. apply api_message_mentions.
Qed.

End HandleResp.

Module EncodeFacts.
Import Js.

Ltac each_octet c := destruct c as [[] [] [] [] [] [] [] []]; vm_compute.

Lemma unescaped_is_plain (c : ascii) :
  uri_unescaped c = true ->
  Ascii.eqb c "%"%char = false /\ is_reserved c = false.
Proof. each_octet c; intros H; (discriminate H || (split; reflexivity)). Qed.

Lemma hex_digits_unescaped (c : ascii) :
  uri_unescaped (hex_digit (nat_of_ascii c / 16)) = true /\
  uri_unescaped (hex_digit (nat_of_ascii c mod 16)) = true.
Proof. each_octet c; split; reflexivity. Qed.

Lemma escape_reads_back (c : ascii) :
  hex_value (hex_digit (nat_of_ascii c / 16)) = Some (nat_of_ascii c / 16) /\
  hex_value (hex_digit (nat_of_ascii c mod 16)) = Some (nat_of_ascii c mod 16) /\
  ascii_of_nat (16 * (nat_of_ascii c / 16) + nat_of_ascii c mod 16) = c.
Proof. each_octet c; repeat split; reflexivity. Qed.

Lemma all_chars_app (p : ascii -> bool) (a b : string) :
  all_chars p (a ++ b) = all_chars p a && all_chars p b.
Proof.
  induction a as [|c a IH]; simpl; [reflexivity |].
  rewrite IH. apply andb_assoc.
Qed.

Lemma encoded_alphabet (s : string) :
  all_chars (fun c => uri_unescaped c || Ascii.eqb c "%"%char) (encodeURIComponent s) = true.
Proof.
  induction s as [|c s IH]; simpl; [reflexivity |].
  rewrite all_chars_app, IH, andb_true_r.
  unfold encode_octet. destruct (uri_unescaped c) eqn:Hc.
  - cbn [all_chars]. now rewrite Hc.
  - destruct (hex_digits_unescaped c) as [Hh Hl].
    unfold percent_escape. cbn [all_chars]. rewrite Hh, Hl. reflexivity.
Qed.

Lemma encoded_has_no_reserved (s : string) :
  all_chars (fun c => negb (is_reserved c)) (encodeURIComponent s) = true.
Proof.
  induction s as [|c s IH]; simpl; [reflexivity |].
  rewrite all_chars_app, IH, andb_true_r.
  unfold encode_octet. destruct (uri_unescaped c) eqn:Hc.
  - destruct (unescaped_is_plain c Hc) as [_ Hr]. cbn [all_chars]. now rewrite Hr.
  - destruct (hex_digits_unescaped c) as [Hh Hl].
    destruct (unescaped_is_plain _ Hh) as [_ Hrh].
    destruct (unescaped_is_plain _ Hl) as [_ Hrl].
    unfold percent_escape. cbn [all_chars]. rewrite Hrh, Hrl. reflexivity.
Qed.

Lemma decode_encode (s : string) :
  decodeURIComponent (encodeURIComponent s) = Some s.
Proof.
  induction s as [|c s IH]; simpl; [reflexivity |].
  unfold encode_octet. destruct (uri_unescaped c) eqn:Hc.
  - destruct (unescaped_is_plain c Hc) as [Hp _].
    cbn [append decodeURIComponent]. rewrite Hp, IH. reflexivity.
  - destruct (escape_reads_back c) as [Hh [Hl Hback]].
    unfold percent_escape. cbn [append decodeURIComponent].
    change (Ascii.eqb "%"%char "%"%char) with true. cbv iota.
    rewrite Hh, Hl, IH, Hback. reflexivity.
Qed.

End EncodeFacts.

Module StudyPaths.
Import Http NasaApi NasaApiFacts EncodeFacts.

Example reserved_characters_are_escaped :
  Js.encodeURIComponent "OSD-1/../x?y=1&z#top" = "OSD-1%2F..%2Fx%3Fy%3D1%26z%23top".
Proof. reflexivity. Qed.

(** C10: for every study identifier, [getMetadata] requests
    [/study/<percent-encoded id>] and [getFiles], with its defaults,
    [/files/<percent-encoded id>?page=0&size=25&all_files=false]; the encoded
    identifier consists of unescaped characters and percent escapes only, no
    reserved character is left in it, and it reads back as the identifier. *)
Theorem study_paths_are_encoded :
  forall (base studyId : string) (w : world),
    log (snd (getMetadata base studyId w)) =
      (log w ++ [GET (base ++ "/study/" ++ Js.encodeURIComponent studyId)])%list /\
    log (snd (getFiles_default base studyId w)) =
      (log w ++ [GET (base ++ "/files/" ++ Js.encodeURIComponent studyId
                        ++ "?page=0&size=25&all_files=false")])%list /\
    all_chars (fun c => Js.uri_unescaped c || Ascii.eqb c "%"%char)
              (Js.encodeURIComponent studyId) = true /\
    all_chars (fun c => negb (Js.is_reserved c)) (Js.encodeURIComponent studyId) = true /\
    Js.decodeURIComponent (Js.encodeURIComponent studyId) = Some studyId.
Proof.
  intros base studyId w.
  split; [| split; [| split; [| split]]].
  - unfold getMetadata. rewrite fetch_then_handle. reflexivity.
  - unfold getFiles_default, getFiles. rewrite fetch_then_handle. reflexivity.
  - apply encoded_alphabet.
  - apply encoded_has_no_reserved.
  - apply decode_encode.
Qed.

End StudyPaths.

Module GraphRequest.
Import Http NasaApi NasaApiFacts.

Lemma graph_json_nodes (g : GraphBuilder.Graph) :
  Laboratory.nodes (GraphBuilder.graph_json g)
  = Js.Arr (map GraphBuilder.node_json (GraphBuilder.nodes g)).
Proof. reflexivity. Qed.

Lemma graph_json_edges (g : GraphBuilder.Graph) :
  Laboratory.edges (GraphBuilder.graph_json g)
  = Js.Arr (map GraphBuilder.edge_json (GraphBuilder.edges g)).
Proof. reflexivity. Qed.







(** The limit is written the way the number prints: 200 as its digits, and
    a number from 10^21 on in its exponent form, which the route refuses. *)
Example limit_is_written_as_the_number_prints :
  log (snd (getGraph localhost (Js.Integer 200 eq_refl)
              (GraphRoute.backend localhost [mouse_study] [])))
    = [GET "http://localhost:8000/api/graph?limit=200"] /\
  getGraph localhost (Js.Other "1e+21") (GraphRoute.backend localhost [mouse_study] [])
    = (Rejected (Error "API 422 Unprocessable Entity: limit is not a natural number"),
       GraphRoute.backend localhost [mouse_study]
         [GET "http://localhost:8000/api/graph?limit=1e+21"]).
Proof. split; reflexivity. Qed.

End GraphRequest.

Module SearchGate.
Import Http Hooks.

Lemma useSearch_disabled (base : string) (filters : Js.value) (w : world) :
  search_enabled filters = false -> useSearch base filters w = (Idle, w).
Proof. intros H. unfold useSearch, useQuery. rewrite H. reflexivity. Qed.

Lemma search_enabled_empty (filters : Js.value) :
  Js.truthy (Js.get filters "query") = false ->
  Js.get filters "organisms" = Js.Arr [] ->
  Js.get filters "missions" = Js.Arr [] ->
  search_enabled filters = false.
Proof.
  intros Hq Ho Hm. unfold search_enabled, Js.and at 1.
  destruct (Js.truthy filters) eqn:Hf; [| exact Hf].
  unfold Js.or at 1. rewrite Hq, Ho, Hm. reflexivity.
Qed.

(** C9: for every filters object whose query is empty or absent and whose
    organisms and missions lists are both empty, [useSearch] is disabled and
    leaves the network untouched: no request is sent.  In the state of the
    Search page that builds these filters the Search button is disabled. *)
Theorem empty_filters_send_nothing :
  forall (base : string) (filters : Js.value) (w : world),
    Js.get filters "query" = Js.Undefined \/ Js.get filters "query" = Js.Str "" ->
    Js.get filters "organisms" = Js.Arr [] ->
    Js.get filters "missions" = Js.Arr [] ->
    search_enabled filters = false /\
    useSearch base filters w = (Idle, w) /\
    log (snd (useSearch base filters w)) = log w /\
    (forall st, SearchPage.filters st = filters -> SearchPage.button_disabled st = true).
Proof.
  intros base filters w Hq Ho Hm.
  assert (Hoff : search_enabled filters = false).
  { apply search_enabled_empty; [| exact Ho | exact Hm].
    destruct Hq as [Hq | Hq]; rewrite Hq; reflexivity. }
  split; [exact Hoff | split; [| split]].
  - apply useSearch_disabled, Hoff.
  - rewrite (useSearch_disabled base filters w Hoff). reflexivity.
  - intros [q orgs ms] Hst. subst filters.
    unfold SearchPage.filters, NasaApi.SearchFilters in *. cbn in Hq, Ho, Hm.
    unfold SearchPage.button_disabled. cbn [SearchPage.query
      SearchPage.selectedOrganisms SearchPage.selectedMissions].
    assert (q = "") as -> by (destruct Hq as [Hq | Hq]; [discriminate Hq | now inversion Hq]).
    destruct orgs; [| discriminate Ho]. destruct ms; [| discriminate Hm].
    reflexivity.
Qed.

Lemma empty_filters_send_nothing_witness :
  useSearch localhost (NasaApi.SearchFilters "" [] []) (serves_graph GraphBuilder.empty)
  = (Idle, serves_graph GraphBuilder.empty).
Proof.
  apply (empty_filters_send_nothing localhost (NasaApi.SearchFilters "" [] [])
           (serves_graph GraphBuilder.empty));
    [right; reflexivity | reflexivity | reflexivity].
Defined.

End SearchGate.

Module LaboratoryFilter.

Lemma all_filter_passes_snapshot (graphData : Js.value) :
  Laboratory.viewport_props graphData "all"
  = Some (Laboratory.nodes graphData, Laboratory.edges graphData).
Proof. reflexivity. Qed.

Lemma mouse_graph_well_formed :
  Snapshot.well_formed (Laboratory.nodes mouse_graph) (Laboratory.edges mouse_graph).
Proof.
  eexists _, _. split; [reflexivity | split; [reflexivity | split]].
  - intros e [<- | []]. split; cbn; [left | right; left]; reflexivity.
  - intros e [<- | []]. cbn. discriminate.
Qed.

(** C4, on the Laboratory page: with the node-type filter set to "organism"
    (one of the page's buttons) the page hands [GraphViewport] the organism
    nodes only, together with every edge of the snapshot.  The snapshot
    itself is well formed; in the pair handed over, the edge's source, the
    study "OSD-1", is not among the nodes. *)
Theorem organism_filter_leaves_dangling_edge :
  Snapshot.well_formed (Laboratory.nodes mouse_graph) (Laboratory.edges mouse_graph) /\
  In "organism" Laboratory.filter_buttons /\
  exists organism_node edge,
    Laboratory.viewport_props mouse_graph "organism"
      = Some (Js.Arr [organism_node], Js.Arr [edge]) /\
    Js.get edge "source" = Js.Str "OSD-1" /\
    Snapshot.ids [organism_node] = [Js.Str "organism:Mus musculus"] /\
    ~ Snapshot.endpoints_present [organism_node] [edge].
Proof.
  split; [exact mouse_graph_well_formed | split; [cbn; tauto |]].
  eexists _, _. split; [reflexivity | split; [reflexivity | split; [reflexivity |]]].
  intros H. destruct (H _ (or_introl eq_refl)) as [[Hsrc | []] _].
  discriminate Hsrc.
Qed.

End LaboratoryFilter.

(* ================================================================== *)
(** * Properties of the backend core *)
(* ================================================================== *)

Module AggregatorFacts.
Import Aggregator.

Lemma prefix_split (p s : string) :
  String.prefix p s = true <-> exists rest, s = p ++ rest.
Proof.
  revert s. induction p as [|c p IH]; intros s.
  - split; [intros _; exists s; reflexivity | destruct s; reflexivity].
  - destruct s as [|d s]; simpl.
    + split; [discriminate | intros [rest H]; discriminate H].
    + destruct (ascii_dec c d) as [-> | Hcd].
      * split.
        -- intros H. apply IH in H. destruct H as [rest ->]. now exists rest.
        -- intros [rest H]. inversion H. apply IH. now exists rest.
      * split; [discriminate | intros [rest H]; inversion H; subst; now elim Hcd].
Qed.

Lemma accepted_genuine (id : string) : accepted id = true <-> genuine id.
Proof.
  unfold accepted, genuine, accepted_prefixes. cbn [existsb].
  rewrite orb_false_r, orb_true_iff, !prefix_split. reflexivity.
Qed.

Lemma enrich_identifier (lookup : string -> option Metadata) (r : DatasetRecord) :
  identifier (enrich lookup r) = identifier r.
Proof. unfold enrich. destruct (lookup (identifier r)); reflexivity. Qed.

Lemma merge_into_In (r x : DatasetRecord) (kept : list DatasetRecord) :
  In x (merge_into r kept) -> x = r \/ In x kept.
Proof.
  induction kept as [|y kept IH]; simpl.
  - intros [H | []]; auto.
  - destruct (String.eqb (identifier y) (identifier r)).
    + destruct (Nat.ltb (completeness y) (completeness r));
        intros [H | H]; auto.
    + intros [H | H]; [auto |]. destruct (IH H); auto.
Qed.

Lemma fold_merge_In (rs kept : list DatasetRecord) (x : DatasetRecord) :
  In x (fold_left (fun kept r => merge_into r kept) rs kept) ->
  In x kept \/ In x rs.
Proof.
  revert kept. induction rs as [|r rs IH]; simpl; intros kept H; [auto |].
  destruct (IH _ H) as [Hk | Hrs]; [| auto].
  destruct (merge_into_In _ _ _ Hk); auto.
Qed.

Lemma dedup_In (rs : list DatasetRecord) (x : DatasetRecord) :
  In x (dedup rs) -> In x rs.
Proof. intros H. destruct (fold_merge_In rs [] x H) as [[] | H']. exact H'. Qed.

Lemma candidates_accepted (hits : list SearchHit)
  (lookup : string -> option Metadata) (r : DatasetRecord) :
  In r (candidates hits lookup) -> accepted (identifier r) = true.
Proof.
  unfold candidates. rewrite map_map, in_map_iff.
  intros [h [<- Hh]]. rewrite enrich_identifier.
  apply filter_In in Hh. exact (proj2 Hh).
Qed.

Lemma aggregate_accepted (hits : list SearchHit)
  (lookup : string -> option Metadata) (r : DatasetRecord) :
  In r (aggregate hits lookup) -> accepted (identifier r) = true.
Proof. intros H. eapply candidates_accepted, dedup_In, H. Qed.

(** C1: for every sequence of search hits (and every metadata lookup), every
    record in the output of [aggregate] has an identifier that starts with
    OSD- or GLDS-, and no record whose identifier fails the filter appears in
    the output. *)
Theorem aggregate_keeps_genuine_only :
  forall (hits : list SearchHit) (lookup : string -> option Metadata),
    Forall (fun r => accepted (identifier r) = true /\ genuine (identifier r))
           (aggregate hits lookup) /\
    (forall r, ~ genuine (identifier r) -> ~ In r (aggregate hits lookup)).
Proof.
  intros hits lookup. split.
  - apply Forall_forall. intros r Hr.
    pose proof (aggregate_accepted hits lookup r Hr) as Ha.
    split; [exact Ha | now apply accepted_genuine].
  - intros r Hbad Hr. apply Hbad, accepted_genuine.
    exact (aggregate_accepted hits lookup r Hr).
Qed.

End AggregatorFacts.

Module DedupFacts.
Import Aggregator AggregatorFacts.

Lemma merge_into_ids (r : DatasetRecord) (kept : list DatasetRecord) (i : string) :
  In i (map identifier (merge_into r kept)) ->
  i = identifier r \/ In i (map identifier kept).
Proof.
  induction kept as [|y kept IH]; simpl.
  - intros [H | []]; auto.
  - destruct (String.eqb (identifier y) (identifier r)) eqn:Hy.
    + apply String.eqb_eq in Hy.
      destruct (Nat.ltb (completeness y) (completeness r)); simpl;
        intros [H | H]; auto.
    + simpl. intros [H | H]; [auto |]. destruct (IH H); auto.
Qed.

Lemma merge_into_NoDup (r : DatasetRecord) (kept : list DatasetRecord) :
  NoDup (map identifier kept) -> NoDup (map identifier (merge_into r kept)).
Proof.
  induction kept as [|y kept IH]; simpl; intros Hnd.
  - constructor; [intros [] | constructor].
  - inversion Hnd as [|? ? Hnotin Hrest]; subst.
    destruct (String.eqb (identifier y) (identifier r)) eqn:Hy.
    + apply String.eqb_eq in Hy.
      destruct (Nat.ltb (completeness y) (completeness r)); simpl.
      * rewrite <- Hy. exact Hnd.
      * exact Hnd.
    + apply String.eqb_neq in Hy. simpl. constructor; [| exact (IH Hrest)].
      intros Hin. destruct (merge_into_ids _ _ _ Hin) as [H | H]; auto.
Qed.

Lemma dedup_NoDup (rs : list DatasetRecord) : NoDup (map identifier (dedup rs)).
Proof.
  unfold dedup.
  assert (H : forall kept, NoDup (map identifier kept) ->
              NoDup (map identifier (fold_left (fun kept r => merge_into r kept) rs kept))).
  { induction rs as [|r rs IH]; simpl; intros kept Hk; [exact Hk |].
    apply IH, merge_into_NoDup, Hk. }
  apply H. constructor.
Qed.

Lemma merge_covers_new (r : DatasetRecord) (kept : list DatasetRecord) :
  covers (merge_into r kept) r.
Proof.
  induction kept as [|y kept IH]; simpl.
  - exists r. simpl. auto.
  - destruct (String.eqb (identifier y) (identifier r)) eqn:Hy.
    + apply String.eqb_eq in Hy.
      destruct (Nat.ltb (completeness y) (completeness r)) eqn:Hlt.
      * exists r. simpl. auto.
      * apply Nat.ltb_ge in Hlt. exists y. simpl. auto.
    + destruct IH as [r' [Hin [Hid Hle]]]. exists r'. simpl. auto.
Qed.

Lemma merge_covers_old (r x : DatasetRecord) (kept : list DatasetRecord) :
  covers kept x -> covers (merge_into r kept) x.
Proof.
  intros [x' [Hin [Hid Hle]]].
  induction kept as [|y kept IH]; simpl; [destruct Hin |].
  destruct Hin as [-> | Hin].
  - destruct (String.eqb (identifier x') (identifier r)) eqn:Hy.
    + apply String.eqb_eq in Hy.
      destruct (Nat.ltb (completeness x') (completeness r)) eqn:Hlt.
      * apply Nat.ltb_lt in Hlt. exists r. simpl.
        split; [auto | split; [congruence | lia]].
      * exists x'. simpl. auto.
    + exists x'. simpl. auto.
  - destruct (String.eqb (identifier y) (identifier r)).
    + exists x'. simpl. auto.
    + destruct (IH Hin) as [z [Hz [Hzid Hzle]]]. exists z. simpl. auto.
Qed.

Lemma fold_merge_covers (rs kept : list DatasetRecord) (x : DatasetRecord) :
  covers kept x \/ In x rs ->
  covers (fold_left (fun kept r => merge_into r kept) rs kept) x.
Proof.
  revert kept. induction rs as [|r rs IH]; simpl; intros kept H.
  - destruct H as [H | []]. exact H.
  - apply IH. destruct H as [H | [-> | H]].
    + left. now apply merge_covers_old.
    + left. apply merge_covers_new.
    + now right.
Qed.

Lemma dedup_covers (rs : list DatasetRecord) (x : DatasetRecord) :
  In x rs -> covers (dedup rs) x.
Proof. intros H. apply fold_merge_covers. now right. Qed.

(** A hit that passes the filter is never lost: the output holds a record
    with its identifier. *)
Lemma accepted_hit_is_kept (hits : list SearchHit)
  (lookup : string -> option Metadata) (h : SearchHit) :
  In h hits -> accepted (hit_id h) = true ->
  exists r, In r (aggregate hits lookup) /\ identifier r = hit_id h.
Proof.
  intros Hin Hacc.
  assert (Hc : In (enrich lookup (of_hit h)) (candidates hits lookup)).
  { unfold candidates. apply in_map, in_map, filter_In. now split. }
  destruct (dedup_covers _ _ Hc) as [r [Hr [Hid _]]].
  exists r. split; [exact Hr |]. now rewrite Hid, enrich_identifier.
Qed.

Lemma scenario_output (lookup : string -> option Metadata) :
  lookup "OSD-1" = None -> aggregate scenario_hits lookup = [mouse_study].
Proof.
  intros H. unfold aggregate, candidates, scenario_hits. cbn [filter accepted
    accepted_prefixes existsb bare_hit hit_id String.prefix map].
  cbn. unfold enrich. cbn. rewrite H. reflexivity.
Qed.

(** C2: [aggregate] keeps one record per identifier, and the one it keeps is
    a candidate at least as metadata-complete as every candidate with that
    identifier.
    On the hits [{id:"OSD-1"}, {id:"FOO-2"}, {id:"OSD-1", organism:"Mus
    musculus"}], with no metadata for OSD-1, the output is exactly one record,
    with identifier OSD-1 and organism Mus musculus. *)
Theorem aggregate_prefers_richer_duplicate :
  forall (hits : list SearchHit) (lookup : string -> option Metadata),
    NoDup (map identifier (aggregate hits lookup)) /\
    (forall r, In r (aggregate hits lookup) -> In r (candidates hits lookup)) /\
    (forall r, In r (candidates hits lookup) -> covers (aggregate hits lookup) r) /\
    (lookup "OSD-1" = None ->
     exists r, aggregate scenario_hits lookup = [r] /\
               identifier r = "OSD-1" /\ organism r = Some "Mus musculus").
Proof.
  intros hits lookup. split; [apply dedup_NoDup | split; [| split]].
  - intros r Hr. now apply dedup_In.
  - intros r Hr. now apply dedup_covers.
  - intros H. exists mouse_study.
    split; [now apply scenario_output | split; reflexivity].
Qed.

Lemma aggregate_prefers_richer_duplicate_witness :
  exists r, aggregate scenario_hits no_metadata = [r] /\
            identifier r = "OSD-1" /\ organism r = Some "Mus musculus".
Proof.
  exact (proj2 (proj2 (proj2 (aggregate_prefers_richer_duplicate
                                scenario_hits no_metadata))) eq_refl).
Defined.

End DedupFacts.

Module GraphFacts.
Import Aggregator GraphBuilder.

Lemma node_type_eqb_eq (a b : node_type) : node_type_eqb a b = true <-> a = b.
Proof. destruct a, b; simpl; split; (reflexivity || discriminate). Qed.

Lemma find_none_filter {A} (p : A -> bool) (l : list A) :
  find p l = None -> filter p l = [].
Proof.
  induction l as [|x l IH]; simpl; [reflexivity |].
  destruct (p x); [discriminate | exact IH].
Qed.

Lemma add_edge_nodes (src tgt : string) (g : Graph) :
  nodes (add_edge src tgt g) = nodes g.
Proof. unfold add_edge. destruct (has_edge src tgt (edges g)); reflexivity. Qed.

(** What [link_entity] does to the node list: nothing, or one new entity
    node whose type and label no node had. *)
Lemma link_entity_nodes (t : node_type) (sid : string) (field : option string)
  (g : Graph) :
  nodes (link_entity t sid field g) = nodes g \/
  exists label,
    filter (is_entity t label) (nodes g) = [] /\
    nodes (link_entity t sid field g)
      = (nodes g ++ [mk_node (entity_id t label) label t])%list.
Proof.
  unfold link_entity. destruct field as [label|]; [| now left].
  destruct (String.eqb label ""); [now left |].
  destruct (find_entity t label (nodes g)) eqn:Hfind; rewrite add_edge_nodes.
  - now left.
  - right. exists label. split; [now apply find_none_filter | reflexivity].
Qed.

Lemma count_after_link (t t' : node_type) (sid label' : string)
  (field : option string) (g : Graph) :
  count_entities t' label' g <= 1 ->
  count_entities t' label' (link_entity t sid field g) <= 1.
Proof.
  unfold count_entities. intros H.
  destruct (link_entity_nodes t sid field g) as [-> | [label [Hnone ->]]]; [exact H |].
  rewrite filter_app, length_app. cbn [filter].
  destruct (is_entity t' label' (mk_node (entity_id t label) label t)) eqn:Hnew;
    cbn [List.length]; [| lia].
  unfold is_entity in Hnew. cbn in Hnew. apply andb_true_iff in Hnew.
  destruct Hnew as [Ht Hl]. apply node_type_eqb_eq in Ht. apply String.eqb_eq in Hl.
  subst t' label'. rewrite Hnone. cbn. lia.
Qed.

Lemma count_after_record (t : node_type) (label : string) (g : Graph)
  (r : DatasetRecord) :
  t <> Study ->
  count_entities t label g <= 1 ->
  count_entities t label (add_record g r) <= 1.
Proof.
  intros Ht H. unfold add_record. do 2 apply count_after_link.
  unfold count_entities in *. cbn [nodes]. rewrite filter_app, length_app.
  unfold is_entity at 2. cbn.
  destruct t; [now elim Ht | | |]; cbn; lia.
Qed.

Lemma entities_unique (t : node_type) (label : string)
  (records : list DatasetRecord) (limit : nat) :
  t <> Study -> count_entities t label (buildGraph records limit) <= 1.
Proof.
  intros Ht. unfold buildGraph.
  assert (H : forall rs g, count_entities t label g <= 1 ->
                           count_entities t label (fold_left add_record rs g) <= 1).
  { induction rs as [|r rs IH]; simpl; intros g Hg; [exact Hg |].
    apply IH, count_after_record; assumption. }
  apply H. cbn. lia.
Qed.

(** Edges: no ordered pair twice. *)
Lemma has_edge_false (src tgt : string) (es : list GraphEdge) :
  has_edge src tgt es = false -> ~ In (src, tgt) (map endpoints es).
Proof.
  unfold has_edge. induction es as [|e es IH]; simpl; [tauto |].
  intros H. apply orb_false_iff in H. destruct H as [He Hes].
  intros [Heq | Hin]; [| exact (IH Hes Hin)].
  unfold endpoints in Heq. inversion Heq; subst.
  unfold joins in He. now rewrite !String.eqb_refl in He.
Qed.

Lemma NoDup_snoc {A} (l : list A) (x : A) :
  NoDup l -> ~ In x l -> NoDup (l ++ [x]).
Proof.
  intros Hl Hx. apply NoDup_rev in Hl. apply (NoDup_cons x) in Hl.
  - apply NoDup_rev in Hl. simpl in Hl. now rewrite rev_involutive in Hl.
  - now rewrite <- in_rev.
Qed.

Lemma add_edge_NoDup (src tgt : string) (g : Graph) :
  NoDup (map endpoints (edges g)) ->
  NoDup (map endpoints (edges (add_edge src tgt g))).
Proof.
  intros H. unfold add_edge. destruct (has_edge src tgt (edges g)) eqn:Hhas; [exact H |].
  cbn [edges]. rewrite map_app. apply NoDup_snoc; [exact H |].
  now apply has_edge_false.
Qed.

Lemma link_entity_NoDup (t : node_type) (sid : string) (field : option string)
  (g : Graph) :
  NoDup (map endpoints (edges g)) ->
  NoDup (map endpoints (edges (link_entity t sid field g))).
Proof.
  intros H. unfold link_entity. destruct field as [label|]; [| exact H].
  destruct (String.eqb label ""); [exact H |].
  destruct (find_entity t label (nodes g)); apply add_edge_NoDup; exact H.
Qed.

Lemma edges_never_repeat (records : list DatasetRecord) (limit : nat) :
  NoDup (map endpoints (edges (buildGraph records limit))).
Proof.
  unfold buildGraph.
  assert (H : forall rs g, NoDup (map endpoints (edges g)) ->
                           NoDup (map endpoints (edges (fold_left add_record rs g)))).
  { induction rs as [|r rs IH]; simpl; intros g Hg; [exact Hg |].
    apply IH. unfold add_record. do 2 apply link_entity_NoDup. exact Hg. }
  apply H. constructor.
Qed.

End GraphFacts.

Module MissionScenario.
Import Aggregator GraphBuilder GraphFacts.

Lemma firstn_two {A} (a b : A) (limit : nat) :
  2 <= limit -> firstn limit [a; b] = [a; b].
Proof.
  intros H. destruct limit as [|[|n]]; [lia | lia | simpl; now rewrite firstn_nil].
Qed.

Lemma find_in_filter {A} (p q : A -> bool) (l : list A) :
  (forall x, p x = true -> q x = true) -> find p (filter q l) = find p l.
Proof.
  intros Hpq. induction l as [|x l IH]; simpl; [reflexivity |].
  destruct (q x) eqn:Hq; simpl.
  - destruct (p x); [reflexivity | exact IH].
  - destruct (p x) eqn:Hp; [| exact IH]. apply Hpq in Hp. congruence.
Qed.

Lemma find_mission (label : string) (g : Graph) :
  find_entity Mission label (nodes g)
  = find (is_entity Mission label) (nodes_of_kind Mission g).
Proof.
  unfold find_entity, nodes_of_kind. symmetry. apply find_in_filter.
  intros n H. unfold is_entity in H. now apply andb_true_iff in H.
Qed.

Lemma has_edge_into (src tgt : string) (g : Graph) :
  has_edge src tgt (edges g)
  = existsb (fun e => String.eqb (edge_source e) src) (edges_into tgt g).
Proof.
  unfold has_edge, edges_into, joins.
  induction (edges g) as [|e es IH]; simpl; [reflexivity |].
  destruct (String.eqb (edge_target e) tgt); simpl.
  - now rewrite andb_true_r, IH.
  - now rewrite andb_false_r, IH.
Qed.

Lemma organism_is_not_mission (a b : string) :
  String.eqb (entity_id Organism a) (entity_id Mission b) = false.
Proof. reflexivity. Qed.

Lemma tracks_study (label : string) (g : Graph) (ms : list GraphNode)
  (es : list GraphEdge) (id ttl : string) :
  tracks label g ms es ->
  tracks label (mk_graph (nodes g ++ [mk_node id ttl Study]) (edges g)) ms es.
Proof.
  intros [Hm [He Hfix]]. repeat split.
  - unfold nodes_of_kind in *. cbn [nodes]. rewrite filter_app, Hm. cbn.
    apply app_nil_r.
  - exact He.
  - intros n Hn Hk. cbn [nodes] in Hn. apply in_app_or in Hn.
    destruct Hn as [Hn | [<- | []]]; [now apply Hfix | discriminate Hk].
Qed.

Lemma tracks_add_edge_elsewhere (label src tgt : string) (g : Graph)
  (ms : list GraphNode) (es : list GraphEdge) :
  String.eqb tgt (entity_id Mission label) = false ->
  tracks label g ms es -> tracks label (add_edge src tgt g) ms es.
Proof.
  intros Htgt [Hm [He Hfix]]. unfold add_edge.
  destruct (has_edge src tgt (edges g)); [now repeat split |].
  repeat split; [exact Hm | | exact Hfix].
  unfold edges_into in *. cbn [edges]. rewrite filter_app, He.
  cbn [filter edge_target]. rewrite Htgt. apply app_nil_r.
Qed.

Lemma tracks_organism (label sid : string) (field : option string) (g : Graph)
  (ms : list GraphNode) (es : list GraphEdge) :
  tracks label g ms es ->
  tracks label (link_entity Organism sid field g) ms es.
Proof.
  intros H. unfold link_entity. destruct field as [org|]; [| exact H].
  destruct (String.eqb org ""); [exact H |].
  destruct (find_entity Organism org (nodes g)) as [n|] eqn:Hfind.
  - apply tracks_add_edge_elsewhere; [| exact H].
    apply find_some in Hfind. destruct Hfind as [Hin Hent].
    unfold is_entity in Hent. apply andb_true_iff in Hent.
    destruct Hent as [Hk _]. apply node_type_eqb_eq in Hk.
    destruct H as [_ [_ Hfix]]. rewrite (Hfix n Hin Hk).
    apply organism_is_not_mission.
  - apply tracks_add_edge_elsewhere; [apply organism_is_not_mission |].
    destruct H as [Hm [He Hfix]]. repeat split.
    + unfold nodes_of_kind in *. cbn [nodes]. rewrite filter_app, Hm. cbn.
      apply app_nil_r.
    + exact He.
    + intros n Hn Hk. cbn [nodes] in Hn. apply in_app_or in Hn.
      destruct Hn as [Hn | [<- | []]]; [now apply Hfix | reflexivity].
Qed.

Lemma tracks_mission_first (label sid : string) (g : Graph) :
  label <> "" ->
  tracks label g [] [] ->
  tracks label (link_entity Mission sid (Some label) g)
         [mk_node (entity_id Mission label) label Mission]
         [mk_edge sid (entity_id Mission label) None].
Proof.
  intros Hl [Hm [He Hfix]]. unfold link_entity.
  apply String.eqb_neq in Hl. rewrite Hl, find_mission, Hm. cbn [find].
  unfold add_edge. rewrite has_edge_into. unfold edges_into in *. cbn [edges].
  rewrite He. cbn [existsb]. repeat split.
  - unfold nodes_of_kind in *. cbn [nodes]. rewrite filter_app, Hm. reflexivity.
  - unfold edges_into. cbn [edges]. rewrite filter_app, He.
    cbn [filter edge_target app]. now rewrite String.eqb_refl.
  - intros n Hn Hk. cbn [nodes] in Hn. apply in_app_or in Hn.
    destruct Hn as [Hn | [<- | []]]; [now apply Hfix | discriminate Hk].
Qed.

Lemma tracks_mission_again (label sid1 sid2 : string) (g : Graph) :
  label <> "" -> sid1 <> sid2 ->
  tracks label g [mk_node (entity_id Mission label) label Mission]
         [mk_edge sid1 (entity_id Mission label) None] ->
  tracks label (link_entity Mission sid2 (Some label) g)
         [mk_node (entity_id Mission label) label Mission]
         [mk_edge sid1 (entity_id Mission label) None;
          mk_edge sid2 (entity_id Mission label) None].
Proof.
  intros Hl Hne [Hm [He Hfix]]. unfold link_entity.
  apply String.eqb_neq in Hl. rewrite Hl, find_mission, Hm.
  cbn [find is_entity node_kind node_label node_type_eqb andb].
  rewrite String.eqb_refl. cbn [node_id].
  unfold add_edge. rewrite has_edge_into, He. cbn [existsb edge_source orb].
  apply String.eqb_neq in Hne. rewrite Hne. cbn [orb]. repeat split.
  - exact Hm.
  - unfold edges_into in *. cbn [edges]. rewrite filter_app, He.
    cbn [filter edge_target app]. now rewrite String.eqb_refl.
  - exact Hfix.
Qed.

Lemma tracks_empty (label : string) : tracks label empty [] [].
Proof. repeat split. intros n []. Qed.

Lemma two_records_share_mission (label : string) (r1 r2 : DatasetRecord)
  (limit : nat) :
  label <> "" ->
  identifier r1 <> identifier r2 ->
  mission r1 = Some label -> mission r2 = Some label -> 2 <= limit ->
  tracks label (buildGraph [r1; r2] limit)
         [mk_node (entity_id Mission label) label Mission]
         [mk_edge (identifier r1) (entity_id Mission label) None;
          mk_edge (identifier r2) (entity_id Mission label) None].
Proof.
  intros Hl Hne H1 H2 Hlim. unfold buildGraph. rewrite firstn_two by exact Hlim.
  cbn [fold_left]. unfold add_record at 1. rewrite H2.
  apply tracks_mission_again; [exact Hl | exact Hne |].
  apply tracks_organism, tracks_study.
  unfold add_record. rewrite H1.
  apply tracks_mission_first; [exact Hl |].
  apply tracks_organism, tracks_study, tracks_empty.
Qed.

(** C3: [buildGraph] never holds two edges between the same ordered pair and
    never two organism nodes or two mission nodes with the same label.  Given
    two records (with different identifiers, both within the limit) that both
    carry the mission "ISS Expedition 65", the graph has exactly one mission
    node, the one for that label, and exactly two edges into it, one from
    each study. *)
Theorem buildGraph_shares_mission_node :
  forall (records : list DatasetRecord) (limit : nat),
    NoDup (map endpoints (edges (buildGraph records limit))) /\
    (forall label,
       count_entities Organism label (buildGraph records limit) <= 1 /\
       count_entities Mission label (buildGraph records limit) <= 1) /\
    (forall (r1 r2 : DatasetRecord) (lim : nat),
       identifier r1 <> identifier r2 ->
       mission r1 = Some iss -> mission r2 = Some iss -> 2 <= lim ->
       nodes_of_kind Mission (buildGraph [r1; r2] lim)
         = [mk_node (entity_id Mission iss) iss Mission] /\
       count_kind Mission (buildGraph [r1; r2] lim) = 1 /\
       edges_into (entity_id Mission iss) (buildGraph [r1; r2] lim)
         = [mk_edge (identifier r1) (entity_id Mission iss) None;
            mk_edge (identifier r2) (entity_id Mission iss) None] /\
       count_edges_into (entity_id Mission iss) (buildGraph [r1; r2] lim) = 2).
Proof.
  intros records limit. split; [apply edges_never_repeat | split].
  - intros label. split; apply entities_unique; discriminate.
  - intros r1 r2 lim Hne H1 H2 Hlim.
    assert (Hiss : iss <> "") by discriminate.
    destruct (two_records_share_mission iss r1 r2 lim Hiss Hne H1 H2 Hlim)
      as [Hm [He _]].
    unfold count_kind, count_edges_into.
    fold (nodes_of_kind Mission (buildGraph [r1; r2] lim)).
    fold (edges_into (entity_id Mission iss) (buildGraph [r1; r2] lim)).
    rewrite Hm, He. repeat split.
Qed.

Lemma buildGraph_shares_mission_node_witness :
  count_kind Mission (buildGraph [iss_study "OSD-1"; iss_study "GLDS-2"] 200) = 1 /\
  count_edges_into (entity_id Mission iss)
    (buildGraph [iss_study "OSD-1"; iss_study "GLDS-2"] 200) = 2.
Proof.
  destruct (proj2 (proj2 (buildGraph_shares_mission_node [] 0))
              (iss_study "OSD-1") (iss_study "GLDS-2") 200)
    as [_ [Hn [_ He]]];
    [discriminate | reflexivity | reflexivity | lia |].
  split; [exact Hn | exact He].
Defined.

End MissionScenario.

Module FingerprintFacts.
Import Cache.

















(** Whatever signs the key is written with, two mappings that give the key
    [a] different values are written as the same key. *)
Lemma concatenation_collides (head kv pair endpoint : string) :
  well_formed (long_first_value kv pair) /\
  well_formed (long_second_value kv pair) /\
  value_of "a" (long_first_value kv pair) <> value_of "a" (long_second_value kv pair) /\
  fingerprint_with head kv pair endpoint (long_first_value kv pair)
  = fingerprint_with head kv pair endpoint (long_second_value kv pair).
Proof.
  split; [| split; [| split]].
  - repeat constructor; simpl; intuition discriminate.
  - repeat constructor; simpl; intuition discriminate.
  - simpl. intros H. injection H as H. destruct pair; discriminate H.
  - unfold fingerprint_with. do 2 f_equal.
    cbn [long_first_value long_second_value sort fold_right insert key_leb fst
         String.leb String.compare Ascii.compare render_with].
    simpl. rewrite !NasaApiFacts.append_assoc. simpl.
    rewrite !NasaApiFacts.append_assoc. reflexivity.
Qed.



Example fingerprint_sorts_keys :
  fingerprint "datasets" page_then_limit = "datasets?limit=50&page=0".
Proof. reflexivity. Qed.


End FingerprintFacts.

Module GatewayFacts.
Import Gateway.

Section Facts.
Variable Payload : Type.
Implicit Types (upstream : nat -> attempt Payload) (payload : Payload).






End Facts.

(** With a budget of three attempts the fourth answer is never asked for. *)
Example three_attempts_do_not_reach_the_fourth :
  fetch 3 (recovers_on_fourth "studies") = (Err RemoteUnavailable, 3).
Proof. reflexivity. Qed.

Example not_found_is_immediate :
  fetch 3 unknown_study = (Err NotFound, 1).
Proof. reflexivity. Qed.


End GatewayFacts.

Module BuiltSnapshot.
Import Aggregator GraphBuilder GraphFacts.

Lemma closed_more_nodes (g : Graph) (ns : list GraphNode) :
  closed g -> closed (mk_graph (nodes g ++ ns) (edges g)).
Proof.
  intros H e He. cbn [nodes edges] in *. rewrite map_app.
  destruct (H e He) as [Hs Ht]. split; apply in_or_app; now left.
Qed.

Lemma closed_add_edge (src tgt : string) (g : Graph) :
  closed g ->
  In src (map node_id (nodes g)) -> In tgt (map node_id (nodes g)) ->
  closed (add_edge src tgt g).
Proof.
  intros H Hs Ht. unfold add_edge.
  destruct (has_edge src tgt (edges g)); [exact H |].
  intros e He. cbn [nodes edges] in *. apply in_app_or in He.
  destruct He as [He | [<- | []]]; [now apply H | now split].
Qed.

Lemma closed_link_entity (t : node_type) (sid : string) (field : option string)
  (g : Graph) :
  closed g -> In sid (map node_id (nodes g)) ->
  closed (link_entity t sid field g) /\
  In sid (map node_id (nodes (link_entity t sid field g))).
Proof.
  intros H Hsid. unfold link_entity. destruct field as [label|]; [| now split].
  destruct (String.eqb label ""); [now split |].
  destruct (find_entity t label (nodes g)) as [n|] eqn:Hfind;
    rewrite add_edge_nodes.
  - split; [| exact Hsid]. apply closed_add_edge; [exact H | exact Hsid |].
    apply find_some in Hfind. apply in_map, Hfind.
  - cbn [nodes]. rewrite map_app. split; [| apply in_or_app; now left].
    apply closed_add_edge.
    + now apply closed_more_nodes.
    + cbn [nodes]. rewrite map_app. apply in_or_app. now left.
    + cbn [nodes]. rewrite map_app. apply in_or_app. right. now left.
Qed.

Lemma closed_add_record (g : Graph) (r : DatasetRecord) :
  closed g -> closed (add_record g r).
Proof.
  intros H. unfold add_record.
  set (g1 := mk_graph (nodes g ++ [mk_node (identifier r) (title r) Study]) (edges g)).
  assert (Hg1 : closed g1) by now apply closed_more_nodes.
  assert (Hid : In (identifier r) (map node_id (nodes g1))).
  { cbn [g1 nodes]. rewrite map_app. apply in_or_app. right. now left. }
  destruct (closed_link_entity Organism (identifier r) (organism r) g1 Hg1 Hid)
    as [Hg2 Hid2].
  exact (proj1 (closed_link_entity Mission (identifier r) (mission r) _ Hg2 Hid2)).
Qed.

(** No edge of a built graph refers to a node the graph does not have. *)
Lemma built_graph_closed (records : list DatasetRecord) (limit : nat) :
  closed (buildGraph records limit).
Proof.
  unfold buildGraph.
  assert (H : forall rs g, closed g -> closed (fold_left add_record rs g)).
  { induction rs as [|r rs IH]; simpl; intros g Hg; [exact Hg |].
    apply IH, closed_add_record, Hg. }
  apply H. intros e [].
Qed.

(** With the filter on "all" the Laboratory page hands the built snapshot
    over as it is, and every edge finds its two nodes. *)
Lemma all_filter_keeps_endpoints (records : list DatasetRecord) (limit : nat) :
  exists ns es,
    Laboratory.viewport_props (graph_json (buildGraph records limit)) "all"
      = Some (Js.Arr ns, Js.Arr es) /\
    Snapshot.endpoints_present ns es.
Proof.
  eexists _, _. split; [reflexivity |].
  intros e He. apply in_map_iff in He. destruct He as [e0 [<- He0]].
  destruct (built_graph_closed records limit e0 He0) as [Hs Ht].
  unfold Snapshot.ids. rewrite map_map.
  split.
  - apply in_map_iff in Hs. destruct Hs as [n [Hn Hin]].
    apply in_map_iff. exists n. split; [| exact Hin]. cbn. now rewrite Hn.
  - apply in_map_iff in Ht. destruct Ht as [n [Hn Hin]].
    apply in_map_iff. exists n. split; [| exact Hin]. cbn. now rewrite Hn.
Qed.

End BuiltSnapshot.

(* ================================================================== *)
(** * Further properties of the client *)
(* ================================================================== *)

Module RequestPaths.
Import Http NasaApi NasaApiFacts EncodeFacts.

Lemma append_cancel_l (a x y : string) : a ++ x = a ++ y -> x = y.
Proof.
  induction a as [|c a IH]; simpl; intros H; [exact H |].
  inversion H. now apply IH.
Qed.

Lemma append_length (a b : string) :
  String.length (a ++ b) = String.length a + String.length b.
Proof. induction a as [|c a IH]; simpl; [reflexivity | now rewrite IH]. Qed.

Lemma append_cancel_r (x y z : string) : x ++ z = y ++ z -> x = y.
Proof.
  revert y. induction x as [|c x IH]; intros y H.
  - destruct y as [|d y]; [reflexivity |].
    apply (f_equal String.length) in H. simpl in H.
    rewrite append_length in H. lia.
  - destruct y as [|d y].
    + apply (f_equal String.length) in H. simpl in H.
      rewrite append_length in H. lia.
    + simpl in H. inversion H. f_equal. now apply IH.
Qed.

Lemma encode_injective (a b : string) :
  Js.encodeURIComponent a = Js.encodeURIComponent b -> a = b.
Proof.
  intros H. apply (f_equal Js.decodeURIComponent) in H.
  rewrite !decode_encode in H. now inversion H.
Qed.

Lemma snoc_injective {A} (l : list A) (x y : A) :
  (l ++ [x])%list = (l ++ [y])%list -> x = y.
Proof. intros H. apply app_inj_tail in H. apply H. Qed.

(** Different study identifiers never lead to the same request: the
    requests [getMetadata] and [getFiles] send identify the study. *)
Theorem study_requests_identify_the_study :
  forall (base a b : string) (page size : Z) (all_files : bool) (w : world),
    a <> b ->
    log (snd (getMetadata base a w)) <> log (snd (getMetadata base b w)) /\
    log (snd (getFiles base a page size all_files w))
      <> log (snd (getFiles base b page size all_files w)).
Proof.
  intros base a b page size all_files w Hab. split; intros H; apply Hab.
  - unfold getMetadata in H. rewrite !fetch_then_handle in H. cbn [snd log] in H.
    apply snoc_injective in H. inversion H as [Hurl].
    apply append_cancel_l in Hurl.
    apply (append_cancel_l "/study/" (Js.encodeURIComponent a)
             (Js.encodeURIComponent b)) in Hurl.
    now apply encode_injective.
  - unfold getFiles in H. rewrite !fetch_then_handle in H. cbn [snd log] in H.
    apply snoc_injective in H. inversion H as [Hurl].
    apply append_cancel_l in Hurl.
    apply (append_cancel_l "/files/") in Hurl.
    apply append_cancel_r in Hurl.
    now apply encode_injective.
Qed.

Lemma study_requests_identify_the_study_witness :
  log (snd (getMetadata localhost "OSD-1" (serves_graph GraphBuilder.empty)))
  <> log (snd (getMetadata localhost "OSD-2" (serves_graph GraphBuilder.empty))).
Proof.
  apply (study_requests_identify_the_study localhost "OSD-1" "OSD-2" 0 25 false
           (serves_graph GraphBuilder.empty)).
  discriminate.
Defined.

Lemma encode_length (s : string) :
  String.length s <= String.length (Js.encodeURIComponent s).
Proof.
  induction s as [|c s IH]; simpl; [lia |].
  rewrite append_length. unfold Js.encode_octet.
  destruct (Js.uri_unescaped c); simpl; lia.
Qed.

Lemma encode_plain_iff (s : string) :
  all_chars Js.uri_unescaped s = true <-> Js.encodeURIComponent s = s.
Proof.
  induction s as [|c s IH]; simpl; [tauto |].
  unfold Js.encode_octet. destruct (Js.uri_unescaped c) eqn:Hc; simpl.
  - rewrite IH. split; intros H; [now rewrite H | now injection H].
  - split; [discriminate |]. intros H. injection H as Hpct Hrest.
    apply (f_equal String.length) in Hrest. simpl in Hrest.
    pose proof (encode_length s). lia.
Qed.

(** An identifier made of letters, digits and the marks - _ . ! ~ * ' ( )
    only, as every OSD-n and GLDS-n is, goes into the path exactly as it is
    written; any other identifier is changed by the encoding. *)
Theorem plain_identifier_is_sent_verbatim :
  forall (base studyId : string) (w : world),
    (all_chars Js.uri_unescaped studyId = true
       <-> Js.encodeURIComponent studyId = studyId) /\
    (all_chars Js.uri_unescaped studyId = true ->
     log (snd (getMetadata base studyId w))
       = (log w ++ [GET (base ++ "/study/" ++ studyId)])%list).
Proof.
  intros base studyId w. split; [apply encode_plain_iff |].
  intros H. apply encode_plain_iff in H.
  unfold getMetadata. rewrite fetch_then_handle. cbn [snd log]. now rewrite H.
Qed.

Lemma plain_identifier_is_sent_verbatim_witness :
  log (snd (getMetadata localhost "OSD-575" (serves_graph GraphBuilder.empty)))
  = [GET "http://localhost:8000/api/study/OSD-575"].
Proof.
  apply (proj2 (plain_identifier_is_sent_verbatim localhost "OSD-575"
                  (serves_graph GraphBuilder.empty))).
  reflexivity.
Defined.

(** [summarize] sends one POST without a body; the text travels in the
    query string, percent-encoded, so that no character of it can end the
    parameter or start another one, and it reads back as the text. *)
Theorem summarize_keeps_text_in_one_parameter :
  forall (base txt : string) (w : world),
    log (snd (summarize base txt w))
      = (log w ++ [mk_request (base ++ "/summarize?text=" ++ Js.encodeURIComponent txt)
                              "POST" [] None])%list /\
    all_chars (fun c => negb (Js.is_reserved c)) (Js.encodeURIComponent txt) = true /\
    Js.decodeURIComponent (Js.encodeURIComponent txt) = Some txt.
Proof.
  intros base txt w. split; [| split].
  - unfold summarize. rewrite fetch_then_handle. reflexivity.
  - apply encoded_has_no_reserved.
  - apply decode_encode.
Qed.

(** [searchStudies] sends one POST to [/search], marked as JSON; its body is
    the filters it was given, or the empty object when it was given none
    ([undefined], [null] or another falsy value), so never [null]. *)
Theorem searchStudies_posts_an_object :
  forall (base : string) (filters : Js.value) (w : world),
    exists sent,
      log (snd (searchStudies base filters w))
        = (log w ++ [mk_request (base ++ "/search") "POST"
                                [("Content-Type", "application/json")] (Some sent)])%list /\
      Js.truthy sent = true /\
      (Js.truthy filters = true -> sent = filters) /\
      (Js.truthy filters = false -> sent = Js.Obj []).
Proof.
  intros base filters w. exists (Js.or filters (Js.Obj [])).
  split; [unfold searchStudies; rewrite fetch_then_handle; reflexivity |].
  unfold Js.or. destruct (Js.truthy filters) eqn:Hf.
  - repeat split; [exact Hf | discriminate].
  - repeat split; discriminate.
Qed.

End RequestPaths.

Module QueryFacts.
Import Http NasaApiFacts.

Section OneRequest.
(** A query function that is one request followed by [handleResp], as every
    method of the client is. *)
Variable rq : request.
Variable queryFn : async Js.value.
Hypothesis one_request :
  forall w,
    queryFn w = (match server w (List.length (log w)) rq with
                 | Resolved r => NasaApi.handleResp r
                 | Rejected e => Rejected e
                 end,
                 mk_world (server w) (log w ++ [rq])%list).

(** The query sends its request at least once and at most once more than it
    may be run again, and nothing else. *)
Lemma attempt_sends (again : nat) (w : world) :
  exists m, 1 <= m <= S again /\
    server (snd (Hooks.attempt queryFn again w)) = server w /\
    log (snd (Hooks.attempt queryFn again w)) = (log w ++ repeat rq m)%list.
Proof.
  revert w. induction again as [|k IH]; intros w; cbn [Hooks.attempt];
    rewrite one_request.
  - exists 1. split; [lia |].
    destruct (server w (List.length (log w)) rq) as [r|e];
      [destruct (NasaApi.handleResp r) |]; split; reflexivity.
  - destruct (server w (List.length (log w)) rq) as [r|e];
      [destruct (NasaApi.handleResp r) as [v|e] |].
    + exists 1. split; [lia | split; reflexivity].
    + destruct (IH (mk_world (server w) (log w ++ [rq]))) as [m [Hm [Hs Hl]]].
      exists (S m). split; [lia |]. rewrite Hs, Hl. cbn [server log repeat].
      split; [reflexivity | now rewrite <- app_assoc].
    + destruct (IH (mk_world (server w) (log w ++ [rq]))) as [m [Hm [Hs Hl]]].
      exists (S m). split; [lia |]. rewrite Hs, Hl. cbn [server log repeat].
      split; [reflexivity | now rewrite <- app_assoc].
Qed.

Lemma useQuery_sends (w : world) :
  exists o w' m,
    Hooks.useQuery queryFn true w = (Hooks.Fetched o, w') /\
    server w' = server w /\
    log w' = (log w ++ repeat rq m)%list /\
    1 <= m <= 4.
Proof.
  unfold Hooks.useQuery.
  destruct (attempt_sends Hooks.retry w) as [m [Hm [Hs Hl]]].
  destruct (Hooks.attempt queryFn Hooks.retry w) as [o w'].
  exists o, w', m. cbn [snd] in Hs, Hl. unfold Hooks.retry in Hm.
  split; [reflexivity | split; [exact Hs | split; [exact Hl | exact Hm]]].
Qed.

(** Answered well, the query sends its request once. *)
Lemma useQuery_answered (w : world) :
  Hooks.answers_ok w ->
  exists v,
    Hooks.useQuery queryFn true w
    = (Hooks.Fetched (Resolved v), mk_world (server w) (log w ++ [rq])%list).
Proof.
  intros Hok. unfold Hooks.useQuery, Hooks.retry. cbn [Hooks.attempt].
  rewrite one_request.
  destruct (Hok (List.length (log w)) rq) as [r [v [Hr Hv]]].
  rewrite Hr, Hv. now exists v.
Qed.

Lemma attempt_refused (again : nat) (w : world) :
  Hooks.answers_fail w ->
  exists e,
    Hooks.attempt queryFn again w
    = (Rejected e, mk_world (server w) (log w ++ repeat rq (S again))%list).
Proof.
  revert w. induction again as [|k IH]; intros w Hfail; cbn [Hooks.attempt];
    rewrite one_request.
  - destruct (Hfail (List.length (log w)) rq) as [[e He] | [r [e [Hr He]]]].
    + rewrite He. now exists e.
    + rewrite Hr, He. now exists e.
  - assert (Hnext : exists e,
               Hooks.attempt queryFn k (mk_world (server w) (log w ++ [rq]))
               = (Rejected e, mk_world (server w) (log w ++ repeat rq (S (S k)))%list)).
    { destruct (IH (mk_world (server w) (log w ++ [rq])) Hfail) as [e He].
      exists e. rewrite He. cbn [server log].
      now rewrite <- app_assoc. }
    destruct (Hfail (List.length (log w)) rq) as [[e He] | [r [e [Hr He]]]].
    + rewrite He. exact Hnext.
    + rewrite Hr, He. exact Hnext.
Qed.

(** Never answered well, the query sends its request four times. *)
Lemma useQuery_refused (w : world) :
  Hooks.answers_fail w ->
  exists e,
    Hooks.useQuery queryFn true w
    = (Hooks.Fetched (Rejected e), mk_world (server w) (log w ++ repeat rq 4)%list).
Proof.
  intros Hfail. unfold Hooks.useQuery.
  destruct (attempt_refused Hooks.retry w Hfail) as [e He].
  rewrite He. now exists e.
Qed.

End OneRequest.
End QueryFacts.

Module SearchPageFacts.
Import Http NasaApiFacts SearchPage.

Lemma hasFilters_enabled (st : state) :
  Js.truthy (hasFilters st) = Hooks.search_enabled (filters st).
Proof.
  destruct st as [q orgs ms]. unfold hasFilters, filters, NasaApi.SearchFilters.
  cbn [query selectedOrganisms selectedMissions].
  destruct q as [|c q]; destruct orgs as [|o orgs]; destruct ms as [|m ms];
    reflexivity.
Qed.

Lemma hasFilters_button (st : state) :
  button_disabled st = negb (Js.truthy (hasFilters st)).
Proof.
  destruct st as [q orgs ms]. unfold hasFilters, button_disabled.
  cbn [query selectedOrganisms selectedMissions].
  destruct q as [|c q]; destruct orgs as [|o orgs]; destruct ms as [|m ms];
    reflexivity.
Qed.

(** On the Search page three things always agree: the page treats the state
    as filtered ([hasFilters]), the search query is enabled, and the Search
    button is not disabled.  So the page shows search results exactly when
    the search query runs. *)
Theorem search_page_gates_agree :
  forall (st : state),
    Js.truthy (hasFilters st) = Hooks.search_enabled (filters st) /\
    button_disabled st = negb (Hooks.search_enabled (filters st)) /\
    (Js.truthy (hasFilters st) = true <->
     query st <> "" \/ selectedOrganisms st <> [] \/ selectedMissions st <> []).
Proof.
  intros st. split; [apply hasFilters_enabled | split].
  - rewrite <- hasFilters_enabled. apply hasFilters_button.
  - destruct st as [q orgs ms]. unfold hasFilters.
    cbn [query selectedOrganisms selectedMissions].
    destruct q as [|c q]; destruct orgs as [|o orgs]; destruct ms as [|m ms];
      cbn; split; intros H; try reflexivity; try discriminate H;
      try (left; discriminate); try (right; left; discriminate);
      try (right; right; discriminate).
    destruct H as [H | [H | H]]; now elim H.
Qed.

Lemma search_idle_at_first (base : string) (w : world) :
  Hooks.useSearch base (filters initial) w = (Hooks.Idle, w).
Proof. reflexivity. Qed.

(** When it mounts, the Search page asks for the organisms, the missions and
    twenty datasets and for nothing else: each of the three requests is sent
    at least once and at most four times, once each and in this order when
    the backend answers well, four times each when it never does.  The
    search is not posted, and the page lists the datasets. *)
Theorem search_page_requests :
  forall (base : string) (w : world),
    let organisms := GET (base ++ "/organisms") in
    let missions := GET (base ++ "/missions") in
    let datasets := GET (base ++ "/datasets?limit=20") in
    (exists sent a b c,
       log (snd (mount base w)) = (log w ++ sent)%list /\
       Permutation sent
         (repeat organisms a ++ repeat missions b ++ repeat datasets c)%list /\
       1 <= a <= 4 /\ 1 <= b <= 4 /\ 1 <= c <= 4) /\
    (Hooks.answers_ok w ->
     log (snd (mount base w)) = (log w ++ [organisms; missions; datasets])%list) /\
    (Hooks.answers_fail w ->
     exists sent,
       log (snd (mount base w)) = (log w ++ sent)%list /\
       Permutation sent
         (repeat organisms 4 ++ repeat missions 4 ++ repeat datasets 4)%list) /\
    search_q (fst (mount base w)) = Hooks.Idle /\
    results initial (fst (mount base w)) = Hooks.data (initial_q (fst (mount base w))).
Proof.
  intros base w organisms missions datasets.
  unfold mount, Hooks.useOrganisms, Hooks.useMissions, Hooks.useDatasets.
  split; [| split; [| split]].
  - destruct (QueryFacts.useQuery_sends organisms (NasaApi.getOrganisms base)
                (fetch_then_handle organisms) w)
      as (o1 & w1 & a & -> & S1 & L1 & Ha).
    destruct (QueryFacts.useQuery_sends missions (NasaApi.getMissions base)
                (fetch_then_handle missions) w1)
      as (o2 & w2 & b & -> & S2 & L2 & Hb).
    destruct (QueryFacts.useQuery_sends datasets (NasaApi.getDatasets base 20)
                (fetch_then_handle datasets) w2)
      as (o3 & w3 & c & -> & S3 & L3 & Hc).
    rewrite search_idle_at_first. cbn [snd].
    exists (repeat organisms a ++ repeat missions b ++ repeat datasets c)%list, a, b, c.
    split; [| split; [reflexivity | auto]].
    rewrite L3, L2, L1, <- !app_assoc. reflexivity.
  - intros Hok.
    destruct (QueryFacts.useQuery_answered organisms (NasaApi.getOrganisms base)
                (fetch_then_handle organisms) w Hok) as [v1 ->].
    destruct (QueryFacts.useQuery_answered missions (NasaApi.getMissions base)
                (fetch_then_handle missions)
                (mk_world (server w) (log w ++ [organisms])) Hok) as [v2 ->]. cbn [server log].
    destruct (QueryFacts.useQuery_answered datasets (NasaApi.getDatasets base 20)
                (fetch_then_handle datasets)
                (mk_world (server w) ((log w ++ [organisms]) ++ [missions])) Hok)
      as [v3 ->].
    rewrite search_idle_at_first. cbn [snd log]. rewrite <- !app_assoc. reflexivity.
  - intros Hfail.
    destruct (QueryFacts.useQuery_refused organisms (NasaApi.getOrganisms base)
                (fetch_then_handle organisms) w Hfail) as [e1 ->].
    destruct (QueryFacts.useQuery_refused missions (NasaApi.getMissions base)
                (fetch_then_handle missions)
                (mk_world (server w) (log w ++ repeat organisms 4)) Hfail) as [e2 ->]. cbn [server log].
    destruct (QueryFacts.useQuery_refused datasets (NasaApi.getDatasets base 20)
                (fetch_then_handle datasets)
                (mk_world (server w)
                   ((log w ++ repeat organisms 4) ++ repeat missions 4)) Hfail)
      as [e3 ->].
    rewrite search_idle_at_first. cbn [snd log].
    exists (repeat organisms 4 ++ repeat missions 4 ++ repeat datasets 4)%list.
    split; [now rewrite <- !app_assoc | reflexivity].
  - destruct (Hooks.useQuery (NasaApi.getOrganisms base) true w) as [q1 w1].
    destruct (Hooks.useQuery (NasaApi.getMissions base) true w1) as [q2 w2].
    destruct (Hooks.useQuery (NasaApi.getDatasets base 20) true w2) as [q3 w3].
    rewrite search_idle_at_first. split; reflexivity.
Qed.

Lemma search_page_requests_witness :
  log (snd (mount localhost (serves_graph GraphBuilder.empty)))
  = [GET "http://localhost:8000/api/organisms";
     GET "http://localhost:8000/api/missions";
     GET "http://localhost:8000/api/datasets?limit=20"].
Proof.
  apply (proj1 (proj2 (search_page_requests localhost (serves_graph GraphBuilder.empty)))).
  intros n rq. eexists _, _. split; reflexivity.
Defined.

Lemma toggle_in (o : string) (prev : list string) :
  In o (toggle o prev) <-> ~ In o prev.
Proof.
  unfold toggle. destruct (existsb (String.eqb o) prev) eqn:Hex.
  - apply existsb_exists in Hex. destruct Hex as [x [Hx Heq]].
    apply String.eqb_eq in Heq. subst x. split.
    + intros H. apply filter_In in H. destruct H as [_ H].
      now rewrite String.eqb_refl in H.
    + intros H. now elim H.
  - split.
    + intros _ Hin.
      assert (existsb (String.eqb o) prev = true) as Habs.
      { apply existsb_exists. exists o. split; [exact Hin | apply String.eqb_refl]. }
      congruence.
    + intros _. apply in_or_app. right. now left.
Qed.

Lemma toggle_others (o x : string) (prev : list string) :
  x <> o -> (In x (toggle o prev) <-> In x prev).
Proof.
  intros Hx. unfold toggle. destruct (existsb (String.eqb o) prev).
  - rewrite filter_In. apply String.eqb_neq in Hx. rewrite Hx. cbn. tauto.
  - rewrite in_app_iff. cbn. split; [| tauto].
    intros [H | [H | []]]; [exact H | now elim Hx].
Qed.

Lemma filter_nothing (o : string) (l : list string) :
  ~ In o l -> filter (fun x => negb (String.eqb x o)) l = l.
Proof.
  induction l as [|y l IH]; simpl; intros H; [reflexivity |].
  destruct (String.eqb y o) eqn:Hy.
  - apply String.eqb_eq in Hy. elim H. now left.
  - simpl. f_equal. apply IH. tauto.
Qed.

(** A click on a badge flips that one selection and leaves every other as
    it was; a selection without repeats stays without repeats, and clicking
    a badge that was not selected twice restores the list. *)
Theorem toggle_flips_one_selection :
  forall (o : string) (prev : list string),
    (In o (toggle o prev) <-> ~ In o prev) /\
    (forall x, x <> o -> (In x (toggle o prev) <-> In x prev)) /\
    (NoDup prev -> NoDup (toggle o prev)) /\
    (~ In o prev -> toggle o (toggle o prev) = prev).
Proof.
  intros o prev. split; [apply toggle_in | split; [| split]].
  - intros x Hx. now apply toggle_others.
  - intros Hnd. unfold toggle. destruct (existsb (String.eqb o) prev) eqn:Hex.
    + now apply NoDup_filter.
    + apply GraphFacts.NoDup_snoc; [exact Hnd |].
      intros Hin.
      assert (existsb (String.eqb o) prev = true) as Habs.
      { apply existsb_exists. exists o. split; [exact Hin | apply String.eqb_refl]. }
      congruence.
  - intros Hnot. unfold toggle at 2.
    destruct (existsb (String.eqb o) prev) eqn:Hex.
    + apply existsb_exists in Hex. destruct Hex as [x [Hx Heq]].
      apply String.eqb_eq in Heq. subst x. now elim Hnot.
    + unfold toggle.
      assert (existsb (String.eqb o) (prev ++ [o]) = true) as ->.
      { apply existsb_exists. exists o.
        split; [apply in_or_app; right; now left | apply String.eqb_refl]. }
      rewrite filter_app. cbn. rewrite String.eqb_refl. cbn.
      rewrite app_nil_r. now apply filter_nothing.
Qed.

Lemma toggle_flips_one_selection_witness :
  toggle "Mus musculus" (toggle "Mus musculus" ["Homo sapiens"]) = ["Homo sapiens"].
Proof.
  apply (proj2 (proj2 (proj2 (toggle_flips_one_selection "Mus musculus" ["Homo sapiens"])))).
  intros [H | []]. discriminate H.
Defined.

End SearchPageFacts.

Module DatasetDetailFacts.
Import Http NasaApiFacts DatasetDetail.

(** Without a usable route parameter (absent or empty) the detail page sends
    nothing.  With one it asks for the study's metadata and for the first
    page of 25 of its files, both under the encoded identifier, and for
    nothing else: each of the two requests is sent at least once and at most
    four times, once each and in this order when the backend answers well,
    four times each when it never does. *)
Theorem detail_page_requests :
  forall (base : string) (id : option string) (w : world),
    let study := GET (base ++ "/study/" ++ Js.encodeURIComponent (Hooks.or_empty id)) in
    let files := GET (base ++ "/files/" ++ Js.encodeURIComponent (Hooks.or_empty id)
                        ++ "?page=0&size=25&all_files=false") in
    (Hooks.given id = false ->
     queries base id w = ((Hooks.Idle, Hooks.Idle), w)) /\
    (Hooks.given id = true ->
     (exists sent a b,
        log (snd (queries base id w)) = (log w ++ sent)%list /\
        Permutation sent (repeat study a ++ repeat files b)%list /\
        1 <= a <= 4 /\ 1 <= b <= 4) /\
     (Hooks.answers_ok w ->
      log (snd (queries base id w)) = (log w ++ [study; files])%list) /\
     (Hooks.answers_fail w ->
      exists sent,
        log (snd (queries base id w)) = (log w ++ sent)%list /\
        Permutation sent (repeat study 4 ++ repeat files 4)%list)).
Proof.
  intros base id w study files.
  unfold queries, Hooks.useDatasetMetadata, Hooks.useDatasetFiles.
  split; intros H; rewrite H; [reflexivity |].
  split; [| split].
  - destruct (QueryFacts.useQuery_sends study
                (NasaApi.getMetadata base (Hooks.or_empty id))
                (fetch_then_handle study) w)
      as (o1 & w1 & a & -> & S1 & L1 & Ha).
    destruct (QueryFacts.useQuery_sends files
                (NasaApi.getFiles base (Hooks.or_empty id) 0 25 false)
                (fetch_then_handle files) w1)
      as (o2 & w2 & b & -> & S2 & L2 & Hb).
    cbn [snd]. exists (repeat study a ++ repeat files b)%list, a, b.
    split; [| split; [reflexivity | auto]].
    rewrite L2, L1, <- app_assoc. reflexivity.
  - intros Hok.
    destruct (QueryFacts.useQuery_answered study
                (NasaApi.getMetadata base (Hooks.or_empty id))
                (fetch_then_handle study) w Hok) as [v1 ->].
    destruct (QueryFacts.useQuery_answered files
                (NasaApi.getFiles base (Hooks.or_empty id) 0 25 false)
                (fetch_then_handle files)
                (mk_world (server w) (log w ++ [study])) Hok) as [v2 ->]. cbn [server log].
    cbn [snd log]. rewrite <- app_assoc. reflexivity.
  - intros Hfail.
    destruct (QueryFacts.useQuery_refused study
                (NasaApi.getMetadata base (Hooks.or_empty id))
                (fetch_then_handle study) w Hfail) as [e1 ->].
    destruct (QueryFacts.useQuery_refused files
                (NasaApi.getFiles base (Hooks.or_empty id) 0 25 false)
                (fetch_then_handle files)
                (mk_world (server w) (log w ++ repeat study 4)) Hfail) as [e2 ->]. cbn [server log].
    cbn [snd log]. exists (repeat study 4 ++ repeat files 4)%list.
    split; [now rewrite <- app_assoc | reflexivity].
Qed.

Lemma detail_page_requests_witness :
  log (snd (queries localhost (Some "OSD-1") (serves_graph GraphBuilder.empty)))
  = [GET "http://localhost:8000/api/study/OSD-1";
     GET "http://localhost:8000/api/files/OSD-1?page=0&size=25&all_files=false"].
Proof.
  apply (proj1 (proj2 (proj2 (detail_page_requests localhost (Some "OSD-1")
                                (serves_graph GraphBuilder.empty)) eq_refl))).
  intros n rq. eexists _, _. split; reflexivity.
Defined.

(** A backend that knows nothing is asked four times for the study and four
    times for its files. *)
Example unknown_study_is_asked_for_four_times :
  List.length (log (snd (queries localhost (Some "OSD-1") knows_nothing))) = 8 /\
  List.length
    (filter (fun rq => String.eqb (url rq) "http://localhost:8000/api/study/OSD-1")
       (log (snd (queries localhost (Some "OSD-1") knows_nothing)))) = 4.
Proof. split; reflexivity. Qed.

Lemma http_is_not_rooted (u : string) :
  String.prefix "http" u = true -> String.prefix "/" u = false.
Proof.
  destruct u as [|c u]; [discriminate |]. cbn [String.prefix]. intros H.
  destruct (ascii_dec "h" c) as [<- | _]; [| discriminate H].
  destruct (ascii_dec "/" "h") as [Habs | _]; [discriminate Habs | reflexivity].
Qed.

(** The Download link of a file whose address is the text [u] (the first of
    [remote_url], [download_url], [url] that is there): it is [u] itself when
    [u] starts with "http", and the backend's files path of the study in every
    other case, in particular for an address relative to the site root and for
    a file with no address. *)
Theorem download_link_is_absolute_or_backend :
  forall (api_base id : option string) (f : Js.value) (u : string),
    own_url f = Js.Str u ->
    (String.prefix "http" u = true -> href api_base id f = Some u) /\
    (String.prefix "http" u = false ->
     href api_base id f = Some (backend_path api_base id)).
Proof.
  intros api_base id f u Hu. unfold href. rewrite Hu. split; intros Hh.
  - rewrite (http_is_not_rooted u Hh), andb_false_r. now rewrite Hh.
  - destruct (negb (String.eqb u "") && String.prefix "/" u).
    + now destruct (String.prefix "http" (backend_path api_base id)).
    + now rewrite Hh.
Qed.

Lemma download_link_is_absolute_or_backend_witness :
  href (Some localhost) (Some "OSD-1")
       (Js.Obj [("file_name", Js.Str "reads.fastq"); ("remote_url", Js.Str "/geode/reads.fastq")])
  = Some "http://localhost:8000/api/osdr/files/OSD-1".
Proof.
  apply (proj2 (download_link_is_absolute_or_backend (Some localhost) (Some "OSD-1")
                  (Js.Obj [("file_name", Js.Str "reads.fastq");
                           ("remote_url", Js.Str "/geode/reads.fastq")])
                  "/geode/reads.fastq" eq_refl)).
  reflexivity.
Defined.

End DatasetDetailFacts.

Module DashboardFacts.
Import Dashboard.

(** While there is nothing to count (no answer yet, or an answer that has
    neither [count] nor [data]) the dashboard shows 0 loaded datasets and no
    card, and without a [total] it shows 138000 in total; nothing throws. *)
Theorem dashboard_without_data :
  forall (datasets : Js.value),
    Js.nullish (Js.opt_get datasets "count") = true ->
    Js.nullish (Js.opt_get datasets "data") = true ->
    Js.nullish (Js.opt_get datasets "total") = true ->
    loadedCount datasets = Js.Num 0 /\
    totalCount datasets = Js.Num 138000 /\
    cards datasets = Some [].
Proof.
  intros datasets Hc Hd Ht. unfold loadedCount, totalCount, cards, Js.coalesce.
  rewrite Hc, Ht.
  destruct (Js.opt_get datasets "data"); try discriminate Hd;
    (split; [reflexivity | split; reflexivity]).
Qed.

Lemma dashboard_without_data_witness :
  loadedCount (Js.Obj [("message", Js.Str "upstream unavailable")]) = Js.Num 0 /\
  totalCount (Js.Obj [("message", Js.Str "upstream unavailable")]) = Js.Num 138000 /\
  cards (Js.Obj [("message", Js.Str "upstream unavailable")]) = Some [].
Proof.
  apply (dashboard_without_data (Js.Obj [("message", Js.Str "upstream unavailable")]));
    reflexivity.
Defined.



End DashboardFacts.

Module MissionCardFacts.
Import MissionCard RequestPaths.

Lemma substring_head (n : nat) (s : string) :
  n <= String.length s ->
  String.length (String.substring 0 n s) = n /\
  exists rest, s = String.substring 0 n s ++ rest.
Proof.
  revert s. induction n as [|n IH]; intros s H.
  - destruct s; simpl; split; try reflexivity; eexists; reflexivity.
  - destruct s as [|c s]; simpl in *; [lia |].
    destruct (IH s) as [Hlen [rest Hrest]]; [lia |].
    split; [now rewrite Hlen |]. exists rest. now rewrite <- Hrest.
Qed.

(** The description on a card never runs over 123 characters.  A description
    of up to 120 characters is shown as it is; a longer one is cut to its
    first 120 characters, followed by three dots. *)
Theorem card_description_is_cut :
  forall (description : string),
    String.length (shown_description description) <= 123 /\
    (String.length description <= 120 ->
     shown_description description = description) /\
    (120 < String.length description ->
     exists first rest,
       description = first ++ rest /\ String.length first = 120 /\
       shown_description description = first ++ "...").
Proof.
  intros description. unfold shown_description.
  destruct (Nat.ltb 120 (String.length description)) eqn:Hlen.
  - apply Nat.ltb_lt in Hlen.
    destruct (substring_head 120 description) as [Hl [rest Hrest]]; [lia |].
    split; [| split].
    + rewrite append_length, Hl. simpl. lia.
    + lia.
    + intros _. exists (String.substring 0 120 description), rest. auto.
  - apply Nat.ltb_ge in Hlen. split; [lia | split; [reflexivity | lia]].
Qed.

Lemma card_description_is_cut_witness :
  shown_description "Rodent research" = "Rodent research".
Proof.
  apply (proj1 (proj2 (card_description_is_cut "Rodent research"))).
  simpl. lia.
Defined.

End MissionCardFacts.

Module NavbarFacts.
Import Navbar.

(** Whatever the current path, the navigation bar draws at most one link as
    active; it draws one exactly when the path is the path of one of its four
    links, so on the pages without a link (training, dataset detail, not
    found) none is active. *)
Theorem at_most_one_active_link :
  forall (pathname : string),
    List.length (active_links pathname) <= 1 /\
    (List.length (active_links pathname) = 1 <-> In pathname (map fst navLinks)).
Proof.
  intros pathname. unfold active_links, navLinks, isActive. cbn [filter fst map].
  destruct (String.eqb pathname "/") eqn:H1;
    destruct (String.eqb pathname "/laboratory") eqn:H2;
    destruct (String.eqb pathname "/search") eqn:H3;
    destruct (String.eqb pathname "/publication") eqn:H4;
    repeat match goal with
           | H : String.eqb _ _ = true |- _ => apply String.eqb_eq in H
           | H : String.eqb _ _ = false |- _ => apply String.eqb_neq in H
           end;
    try congruence; cbn [List.length In];
    (split; [lia |]); (split; [| tauto || (intros _; reflexivity) || idtac]).
  all: try (intros _; auto; tauto).
  all: try (intros Hlen; discriminate Hlen).
  intros [H | [H | [H | [H | []]]]]; congruence.
Qed.

End NavbarFacts.

Module TrainingFacts.
Import Http NasaApiFacts Training.

(** A health check never fails the page: whatever the backend answers, and
    also when it cannot be reached, [checkSystemHealth] sends exactly one
    request, ends with [loading] off, and leaves either the parsed answer or
    the error object, which the card shows as its error line. *)
Theorem health_check_always_settles :
  forall (base : string) (st : state) (w : world),
    let answer := match server w (List.length (log w)) (GET (base ++ "/health")) with
                  | Resolved r => NasaApi.handleResp r
                  | Rejected e => Rejected e
                  end in
    let st' := fst (checkSystemHealth base st w) in
    log (snd (checkSystemHealth base st w)) = (log w ++ [GET (base ++ "/health")])%list /\
    loading st' = false /\
    (forall v, answer = Resolved v -> healthData st' = v) /\
    (forall e, answer = Rejected e ->
       health_card st' = ErrorLine (Js.Str "Failed to check system health")).
Proof.
  intros base st w answer st'. subst st'. unfold checkSystemHealth, NasaApi.health.
  rewrite fetch_then_handle. fold answer.
  destruct answer as [v|e]; cbn [fst snd log loading healthData];
    (split; [reflexivity | split; [reflexivity | split]]).
  - intros v' H. now inversion H.
  - intros e H. discriminate H.
  - intros v H. discriminate H.
  - intros e' _. reflexivity.
Qed.

End TrainingFacts.

Module PublicationFacts.
Import Http NasaApiFacts Publication.

Example spaces_are_blank :
  Js.blank (String " " (String (ascii_of_nat 9) (String (ascii_of_nat 194)
              (String (ascii_of_nat 160) EmptyString)))) = true
  /\ Js.blank " a " = false.
Proof. split; reflexivity. Qed.

(** On blank text (empty, or white space only) [handleSummarize] does
    nothing: no request, no change of state, and the button is disabled.  On
    any other text it sends exactly one POST with the text as typed, keeps the
    text, ends with [loading] off, and on a failure of any kind leaves the
    error object as the summary. *)
Theorem summarize_only_real_text :
  forall (base : string) (st : state) (w : world),
    (Js.blank (textToSummarize st) = true ->
     handleSummarize base st w = (st, w) /\ button_disabled st = true) /\
    (Js.blank (textToSummarize st) = false ->
     let rq := mk_request (base ++ "/summarize?text="
                             ++ Js.encodeURIComponent (textToSummarize st))
                          "POST" [] None in
     let st' := fst (handleSummarize base st w) in
     log (snd (handleSummarize base st w)) = (log w ++ [rq])%list /\
     textToSummarize st' = textToSummarize st /\
     loading st' = false /\
     (forall e,
        match server w (List.length (log w)) rq with
        | Resolved r => NasaApi.handleResp r
        | Rejected e' => Rejected e'
        end = Rejected e ->
        summary st' = Js.Obj [("error", Js.Str "Failed to generate summary")])).
Proof.
  intros base st w. unfold handleSummarize, button_disabled. split; intros Hb; rewrite Hb.
  - split; reflexivity.
  - cbv zeta. unfold NasaApi.summarize. rewrite fetch_then_handle.
    set (rq := mk_request (base ++ "/summarize?text="
                             ++ Js.encodeURIComponent (textToSummarize st))
                          "POST" [] None).
    destruct (match server w (List.length (log w)) rq with
              | Resolved r => NasaApi.handleResp r
              | Rejected e' => Rejected e'
              end) as [v|e0];
      cbn [fst snd log textToSummarize loading summary];
      (split; [reflexivity | split; [reflexivity | split; [reflexivity |]]]).
    + intros e H. discriminate H.
    + intros e _. reflexivity.
Qed.

Lemma summarize_only_real_text_witness :
  handleSummarize localhost (mk_state "   " Js.Null false) (serves_graph GraphBuilder.empty)
  = (mk_state "   " Js.Null false, serves_graph GraphBuilder.empty).
Proof.
  apply (proj1 (summarize_only_real_text localhost (mk_state "   " Js.Null false)
                  (serves_graph GraphBuilder.empty))).
  reflexivity.
Defined.

End PublicationFacts.

Module LaboratoryFacts.
Import Laboratory.

Lemma filter_throwing_some (p : Js.value -> option bool) (xs ys : list Js.value) :
  filter_throwing p xs = Some ys ->
  ys = filter (fun n => match p n with Some true => true | _ => false end) xs /\
  Forall (fun n => p n <> None) xs.
Proof.
  revert ys. induction xs as [|x xs IH]; simpl; intros ys H.
  - inversion H. split; [reflexivity | constructor].
  - destruct (p x) as [b|] eqn:Hp; [| discriminate H].
    destruct (filter_throwing p xs) as [zs|]; [| discriminate H].
    destruct (IH zs eq_refl) as [Hzs Hall]. inversion H; subst.
    split; [now destruct b | constructor; [congruence | exact Hall]].
Qed.

Lemma filter_throwing_none (p : Js.value -> option bool) (xs : list Js.value) :
  filter_throwing p xs = None <-> exists n, In n xs /\ p n = None.
Proof.
  induction xs as [|x xs IH]; simpl.
  - split; [discriminate | intros [n [[] _]]].
  - destruct (p x) as [b|] eqn:Hp.
    + destruct (filter_throwing p xs) as [zs|].
      * split; [discriminate |]. intros [n [[<- | Hin] Hn]]; [congruence |].
        assert (Some zs = None) as Habs by (apply IH; now exists n).
        discriminate Habs.
      * split; [| reflexivity]. intros _.
        destruct (proj1 IH eq_refl) as [n [Hin Hn]]. exists n. auto.
    + split; [| reflexivity]. intros _. exists x. auto.
Qed.

Lemma filter_throwing_kept (p : Js.value -> option bool) (ys : list Js.value) :
  Forall (fun n => p n = Some true) ys -> filter_throwing p ys = Some ys.
Proof.
  induction 1 as [|y ys Hy _ IH]; simpl; [reflexivity |].
  now rewrite Hy, IH.
Qed.

Lemma type_matches_none (ft : string) (n : Js.value) :
  type_matches ft n = None <-> text_typed n = false.
Proof.
  unfold type_matches, text_typed.
  destruct n; try (split; congruence);
    destruct (Js.or _ (Js.Str "")); split; congruence.
Qed.

Lemma kept_by_spec (ft : string) (n : Js.value) :
  kept_by ft n = true <->
  Js.nullish n = false /\
  exists s, Js.or (Js.get n "type") (Js.Str "") = Js.Str s /\ Js.toLowerCase s = ft.
Proof.
  assert (Hstr : forall v : Js.value,
             match match v with
                   | Js.Str s => Some (String.eqb (Js.toLowerCase s) ft)
                   | _ => None
                   end with
             | Some true => true
             | _ => false
             end = true
             <-> exists s, v = Js.Str s /\ Js.toLowerCase s = ft).
  { intros v. destruct v as [| |b|z|s|l|fs];
      try (split; [discriminate | intros [s' [H _]]; discriminate H]).
    destruct (String.eqb (Js.toLowerCase s) ft) eqn:He.
    - apply String.eqb_eq in He. split; [| reflexivity]. intros _. now exists s.
    - apply String.eqb_neq in He. split; [discriminate |].
      intros [s' [H Hs']]. injection H as <-. now elim He. }
  unfold kept_by, type_matches.
  destruct n as [| |b|z|s|l|fs]; cbn [Js.nullish];
    try (split; [discriminate | intros [H _]; discriminate H]);
    rewrite Hstr; tauto.
Qed.

Lemma ascii_typed_text (n : Js.value) : ascii_typed n = true -> text_typed n = true.
Proof.
  unfold ascii_typed, text_typed.
  destruct n; try discriminate;
    destruct (Js.or _ (Js.Str "")); congruence.
Qed.

Lemma text_typed_nullish (n : Js.value) : text_typed n = true -> Js.nullish n = false.
Proof. destruct n; cbn; congruence. Qed.

(** A node the filter cannot read: it is [null] or [undefined], or its type
    is truthy and not text. *)
Lemma text_typed_false (n : Js.value) :
  text_typed n = false <->
  n = Js.Undefined \/ n = Js.Null \/
  (Js.truthy (Js.get n "type") = true /\ forall s, Js.get n "type" <> Js.Str s).
Proof.
  assert (Hor : forall v : Js.value,
             match Js.or v (Js.Str "") with Js.Str _ => true | _ => false end = false
             <-> Js.truthy v = true /\ forall s, v <> Js.Str s).
  { intros v. unfold Js.or. destruct (Js.truthy v) eqn:Ht.
    - destruct v as [| |b|z|s|l|fs]; split;
        try (intros _; split; [reflexivity | discriminate]);
        try reflexivity; try discriminate.
      intros [_ H]. now elim (H s).
    - split; [discriminate | intros [H _]; discriminate H]. }
  unfold text_typed.
  destruct n as [| |b|z|s|l|fs];
    try (split; [auto | reflexivity]);
    rewrite Hor; split;
    try (intros H; right; right; exact H);
    intros [H | [H | H]]; try discriminate H; exact H.
Qed.

Lemma filtered_is_filter (xs ys : list Js.value) (ft : string) :
  ft <> "all" ->
  filteredNodes (Js.Arr xs) ft = Some (Js.Arr ys) ->
  ys = filter (kept_by ft) xs /\ Forall (fun n => text_typed n = true) xs.
Proof.
  intros Hft H. unfold filteredNodes in H.
  apply String.eqb_neq in Hft. rewrite Hft in H.
  destruct (filter_throwing (type_matches ft) xs) as [zs|] eqn:Hf; [| discriminate H].
  inversion H; subst zs. destruct (filter_throwing_some _ _ _ Hf) as [Hys Hall].
  split; [exact Hys |].
  eapply Forall_impl; [| exact Hall]. intros n Hn. cbn in Hn.
  destruct (text_typed n) eqn:Ht; [reflexivity |].
  apply (proj2 (type_matches_none ft n)) in Ht. contradiction.
Qed.



(** The line under a graph of one study and its organism. *)
Example summary_of_the_mouse_graph :
  summary_line mouse_graph = Some "2 nodes • 1 connections".
Proof. reflexivity. Qed.

(** The type filter compares without regard to letter case: when every node
    is there and its type is ASCII text (or missing), a filter other than
    "all" keeps exactly the nodes whose type, in lower case, is the filter,
    in their order, and nothing throws. *)
Theorem type_filter_ignores_case :
  forall (xs : list Js.value) (filterType : string),
    filterType <> "all" ->
    Forall (fun n => ascii_typed n = true) xs ->
    exists ys,
      filteredNodes (Js.Arr xs) filterType = Some (Js.Arr ys) /\
      List.length ys <= List.length xs /\
      (forall n, In n ys <->
         In n xs /\
         exists s, Js.or (Js.get n "type") (Js.Str "") = Js.Str s /\
                   is_ascii s = true /\
                   Js.toLowerCase s = filterType).
Proof.
  intros xs ft Hft Hall.
  assert (Htext : Forall (fun n => text_typed n = true) xs).
  { eapply Forall_impl; [| exact Hall]. intros n. apply ascii_typed_text. }
  destruct (filteredNodes (Js.Arr xs) ft) as [v|] eqn:Hf.
  - unfold filteredNodes in Hf. pose proof Hft as Hft'.
    apply String.eqb_neq in Hft'. rewrite Hft' in Hf.
    destruct (filter_throwing (type_matches ft) xs) as [ys|] eqn:Hfy; [| discriminate Hf].
    inversion Hf; subst v. exists ys. split; [reflexivity |].
    destruct (filter_throwing_some _ _ _ Hfy) as [-> _].
    split; [apply filter_length_le |].
    intros n. rewrite filter_In. fold (kept_by ft n). rewrite kept_by_spec.
    rewrite Forall_forall in Hall, Htext. split.
    + intros [Hin [_ [s [Hs Hlow]]]]. split; [exact Hin |].
      exists s. split; [exact Hs | split; [| exact Hlow]].
      pose proof (Hall n Hin) as Ha. unfold ascii_typed in Ha.
      destruct n; try discriminate Ha; rewrite Hs in Ha; exact Ha.
    + intros [Hin [s [Hs [_ Hlow]]]]. split; [exact Hin |].
      split; [apply text_typed_nullish; now apply Htext |].
      now exists s.
  - exfalso. unfold filteredNodes in Hf.
    apply String.eqb_neq in Hft. rewrite Hft in Hf.
    destruct (filter_throwing (type_matches ft) xs) as [ys|] eqn:Hfy; [discriminate Hf |].
    apply filter_throwing_none in Hfy. destruct Hfy as [n [Hin Hn]].
    apply type_matches_none in Hn.
    rewrite Forall_forall in Htext. rewrite (Htext n Hin) in Hn. discriminate Hn.
Qed.

Lemma type_filter_ignores_case_witness :
  exists ys,
    filteredNodes (Js.Arr [Js.Obj [("id", Js.Str "o1"); ("type", Js.Str "Organism")];
                           Js.Obj [("id", Js.Str "s1"); ("type", Js.Str "study")]])
                  "organism" = Some (Js.Arr ys) /\
    List.length ys <= 2.
Proof.
  destruct (type_filter_ignores_case
              [Js.Obj [("id", Js.Str "o1"); ("type", Js.Str "Organism")];
               Js.Obj [("id", Js.Str "s1"); ("type", Js.Str "study")]]
              "organism")
    as [ys [Hys [Hlen _]]];
    [discriminate | repeat constructor |].
  exists ys. split; [exact Hys | exact Hlen].
Defined.

(** Under "all" the nodes are handed on as they are and the filter does not
    throw.  Under any other filter the filtered view throws a [TypeError]
    exactly when some node is [null] or [undefined], or has a type that is
    truthy and not text (a number, an object). *)
Theorem type_filter_throws_on_untyped_node :
  forall (xs : list Js.value) (filterType : string),
    filteredNodes (Js.Arr xs) "all" = Some (Js.Arr xs) /\
    (filterType <> "all" ->
     (filteredNodes (Js.Arr xs) filterType = None
      <-> exists n, In n xs /\
            (n = Js.Undefined \/ n = Js.Null \/
             (Js.truthy (Js.get n "type") = true /\
              forall s, Js.get n "type" <> Js.Str s)))).
Proof.
  intros xs ft. split; [reflexivity |]. intros Hft.
  unfold filteredNodes. apply String.eqb_neq in Hft. rewrite Hft.
  destruct (filter_throwing (type_matches ft) xs) as [ys|] eqn:Hf.
  - split; [discriminate |]. intros [n [Hin Hn]].
    apply (proj2 (text_typed_false n)) in Hn.
    apply (proj2 (type_matches_none ft n)) in Hn.
    assert (filter_throwing (type_matches ft) xs = None) as Habs
      by (apply filter_throwing_none; now exists n).
    congruence.
  - split; [| reflexivity]. intros _.
    apply filter_throwing_none in Hf. destruct Hf as [n [Hin Hn]].
    exists n. split; [exact Hin |].
    apply text_typed_false. now apply type_matches_none in Hn.
Qed.

Lemma type_filter_throws_on_untyped_node_witness :
  filteredNodes (Js.Arr [Js.Obj [("id", Js.Str "n1"); ("type", Js.Str "mission")];
                         Js.Null]) "mission" = None.
Proof.
  apply (proj2 (type_filter_throws_on_untyped_node
                  [Js.Obj [("id", Js.Str "n1"); ("type", Js.Str "mission")]; Js.Null]
                  "mission")).
  - discriminate.
  - exists Js.Null. split; [right; left; reflexivity | right; left; reflexivity].
Defined.

(** A node whose type is a number stops the filter too. *)
Example numbered_type_stops_the_filter :
  filteredNodes (Js.Arr [Js.Obj [("id", Js.Str "n1"); ("type", Js.Num 7)]]) "mission" = None.
Proof. reflexivity. Qed.

(** Filtering is idempotent: applying the same filter to the nodes it has
    kept keeps all of them. *)
Theorem type_filter_idempotent :
  forall (xs ys : list Js.value) (filterType : string),
    filteredNodes (Js.Arr xs) filterType = Some (Js.Arr ys) ->
    filteredNodes (Js.Arr ys) filterType = Some (Js.Arr ys).
Proof.
  intros xs ys ft H. unfold filteredNodes in *.
  destruct (String.eqb ft "all") eqn:Hft; [reflexivity |].
  destruct (filter_throwing (type_matches ft) xs) as [zs|] eqn:Hf; [| discriminate H].
  inversion H; subst zs.
  destruct (filter_throwing_some _ _ _ Hf) as [Hys _].
  rewrite filter_throwing_kept; [reflexivity |].
  apply Forall_forall. intros n Hn. rewrite Hys in Hn. apply filter_In in Hn.
  destruct Hn as [_ Hn]. destruct (type_matches ft n) as [[|]|]; congruence.
Qed.

Lemma type_filter_idempotent_witness :
  filteredNodes (Js.Arr [Js.Obj [("id", Js.Str "o1"); ("type", Js.Str "Organism")]])
                "organism"
  = Some (Js.Arr [Js.Obj [("id", Js.Str "o1"); ("type", Js.Str "Organism")]]).
Proof.
  apply (type_filter_idempotent
           [Js.Obj [("id", Js.Str "o1"); ("type", Js.Str "Organism")];
            Js.Obj [("id", Js.Str "s1"); ("type", Js.Str "study")]]).
  reflexivity.
Defined.

End LaboratoryFacts.

Module StatisticsFacts.
Import Laboratory LaboratoryFacts.

Lemma of_type_kept (t : string) (n : Js.value) :
  Js.toLowerCase t = t -> of_type t n = true -> kept_by t n = true.
Proof.
  intros Hlow H. unfold of_type, Js.is_string in H.
  destruct (Js.get n "type") as [| |b|z|s|l|fs] eqn:Hty; try discriminate H.
  apply String.eqb_eq in H. subst s.
  apply kept_by_spec. split; [destruct n; try reflexivity; discriminate Hty |].
  exists t. split; [| exact Hlow].
  rewrite Hty. unfold Js.or. cbn [Js.truthy].
  destruct (String.eqb t "") eqn:He; [| reflexivity].
  apply String.eqb_eq in He. now subst t.
Qed.

Lemma filter_length_mono {A} (p q : A -> bool) (l : list A) :
  (forall x, p x = true -> q x = true) ->
  List.length (filter p l) <= List.length (filter q l).
Proof.
  intros Hpq. induction l as [|x l IH]; simpl; [lia |].
  destruct (p x) eqn:Hp.
  - rewrite (Hpq x Hp). simpl. lia.
  - destruct (q x); simpl; lia.
Qed.

Lemma filter_length_cons {A} (p : A -> bool) (x : A) (l : list A) :
  List.length (filter p (x :: l)) = Nat.b2n (p x) + List.length (filter p l).
Proof. simpl. now destruct (p x). Qed.

(** No filter button other than "All" shows a study: the statistics panel
    counts the nodes whose type is "study", and none of the buttons
    "experiment", "organism", "mission" and "publication" keeps such a node. *)
Theorem no_button_shows_studies :
  forall (xs ys : list Js.value) (button : string),
    In button filter_buttons -> button <> "all" ->
    filteredNodes (Js.Arr xs) button = Some (Js.Arr ys) ->
    count_of_type "study" ys = 0.
Proof.
  intros xs ys button Hb Hall H.
  destruct (filtered_is_filter xs ys button Hall H) as [Hys _].
  unfold count_of_type.
  assert (Hnone : forall n, In n ys -> of_type "study" n = false).
  { intros n Hn. rewrite Hys in Hn. apply filter_In in Hn. destruct Hn as [_ Hk].
    destruct (of_type "study" n) eqn:Hs; [| reflexivity]. exfalso.
    apply kept_by_spec in Hk. destruct Hk as [_ [s [Hor Hlow]]].
    unfold of_type, Js.is_string in Hs.
    destruct (Js.get n "type") as [| |b|z|s'|l|fs]; try discriminate Hs.
    apply String.eqb_eq in Hs. subst s'. cbn in Hor. injection Hor as Hor. subst s.
    cbn in Hlow. subst button.
    cbn in Hb. destruct Hb as [Hb | [Hb | [Hb | [Hb | [Hb | []]]]]]; discriminate Hb. }
  clear Hys H. induction ys as [|y ys IH]; [reflexivity |].
  simpl. rewrite (Hnone y (or_introl eq_refl)). apply IH.
  intros n Hn. apply Hnone. now right.
Qed.

Lemma no_button_shows_studies_witness :
  count_of_type "study" [Js.Obj [("id", Js.Str "o1"); ("type", Js.Str "organism")]] = 0.
Proof.
  apply (no_button_shows_studies
           [Js.Obj [("id", Js.Str "s1"); ("type", Js.Str "study")];
            Js.Obj [("id", Js.Str "o1"); ("type", Js.Str "organism")]]
           [Js.Obj [("id", Js.Str "o1"); ("type", Js.Str "organism")]]
           "organism");
    [cbn; tauto | discriminate | reflexivity].
Defined.

(** The three counts of the statistics panel never add up to more than the
    total it shows: a node is counted as a study, as an organism or as a
    mission, never twice. *)
Theorem statistics_add_up :
  forall (nodes : list Js.value),
    count_of_type "study" nodes + count_of_type "organism" nodes
      + count_of_type "mission" nodes <= List.length nodes.
Proof.
  intros nodes. unfold count_of_type.
  induction nodes as [|n nodes IH]; [simpl; lia |].
  rewrite !filter_length_cons. cbn [List.length].
  assert (Hone : Nat.b2n (of_type "study" n) + Nat.b2n (of_type "organism" n)
                 + Nat.b2n (of_type "mission" n) <= 1).
  { unfold of_type, Js.is_string.
    destruct (Js.get n "type") as [| |b|z|s|l|fs]; try (simpl; lia).
    destruct (String.eqb s "study") eqn:H1; destruct (String.eqb s "organism") eqn:H2;
      destruct (String.eqb s "mission") eqn:H3;
      repeat match goal with
             | H : String.eqb _ _ = true |- _ => apply String.eqb_eq in H
             end;
      try congruence; simpl; lia. }
  lia.
Qed.

(** The statistics panel compares types exactly, the filter without regard
    to case: every node the panel counts under a lower-case type is kept by
    the filter of that type, so the panel's count is at most the number of
    nodes the filter shows. *)
Theorem counted_nodes_are_shown :
  forall (xs ys : list Js.value) (t : string),
    Js.toLowerCase t = t -> t <> "all" ->
    filteredNodes (Js.Arr xs) t = Some (Js.Arr ys) ->
    count_of_type t xs <= List.length ys /\
    (forall n, In n xs -> of_type t n = true -> In n ys).
Proof.
  intros xs ys t Hlow Hall H.
  destruct (filtered_is_filter xs ys t Hall H) as [-> _]. split.
  - apply filter_length_mono. intros n. now apply of_type_kept.
  - intros n Hin Ht. apply filter_In. split; [exact Hin | now apply of_type_kept].
Qed.

(** A node typed "Organism" is shown by the organism filter and not counted
    by the panel. *)
Example capitalised_type_is_shown_not_counted :
  filteredNodes (Js.Arr [Js.Obj [("id", Js.Str "o1"); ("type", Js.Str "Organism")]])
                "organism"
  = Some (Js.Arr [Js.Obj [("id", Js.Str "o1"); ("type", Js.Str "Organism")]]) /\
  count_of_type "organism" [Js.Obj [("id", Js.Str "o1"); ("type", Js.Str "Organism")]] = 0.
Proof. split; reflexivity. Qed.

Lemma counted_nodes_are_shown_witness :
  count_of_type "organism"
    [Js.Obj [("id", Js.Str "o1"); ("type", Js.Str "organism")];
     Js.Obj [("id", Js.Str "o2"); ("type", Js.Str "Organism")]] <= 2.
Proof.
  apply (proj1 (counted_nodes_are_shown
                  [Js.Obj [("id", Js.Str "o1"); ("type", Js.Str "organism")];
                   Js.Obj [("id", Js.Str "o2"); ("type", Js.Str "Organism")]]
                  [Js.Obj [("id", Js.Str "o1"); ("type", Js.Str "organism")];
                   Js.Obj [("id", Js.Str "o2"); ("type", Js.Str "Organism")]]
                  "organism" eq_refl ltac:(discriminate) eq_refl)).
Defined.



End StatisticsFacts.
